(** * Rentys: the request workflow between tenants and room owners

    A shallow embedding of the handlers of the Rentys web client
    (OwnerDashboard.tsx, RoomDetails.tsx, AddRoomForm.tsx and the tenant
    dashboard) over a model of the Supabase tables they read and write.

    - The three tables are lists of rows, in insertion order.
    - The [supabase] client is the signed-in user together with the tables.
    - A handler is a computation over a [World]: the client, the state of
      the React component and the log of what the component did to the user
      (toasts, navigation, callbacks).
    - What the store answers beyond the rows (a network failure, a rejected
      statement) is an input: [fault] gives, for each call a handler makes,
      the error the store answers with, if any. *)

From Stdlib Require Import String Ascii List Bool NArith.
Import ListNotations.
Local Open Scope string_scope.

(** ** Rows *)

(** [supabase.auth.getUser()] answers with the signed-in user, of which the
    handlers read the [id]. *)
Record User := mkUser { user_id : string }.

(** [profiles(id, user_id, role, name, email, phone)] *)
Record Profile := mkProfile {
  profiles_id : string;
  profiles_user_id : string;
  profiles_role : string;
  profiles_name : string;
  profiles_email : string;
  profiles_phone : string
}.

(** The embedded resource [profiles (name, email, phone)]. *)
Record Contact := mkContact {
  name : string;
  email : string;
  phone : string
}.

(** [requests(id, room_id, tenant_id, owner_id, message, status, created_at)] *)
Record RequestRow := mkRequestRow {
  requests_id : string;
  requests_room_id : string;
  requests_tenant_id : string;
  requests_owner_id : string;
  requests_message : string;
  requests_status : string;
  requests_created_at : string
}.

(** The second argument of [handleRequestAction]: ['accepted' | 'rejected']. *)
Inductive Decision := accepted | rejected.

Definition decision_status (d : Decision) : string :=
  match d with
  | accepted => "accepted"
  | rejected => "rejected"
  end.

(** The columns the store fills in on an insert. *)
Record Generated := mkGenerated {
  gen_id : string;
  gen_created_at : string
}.

(** ** What a component does to the user *)

Inductive Variant := default_variant | destructive.

Record Toast := mkToast {
  title : string;
  description : string;
  variant : Variant
}.

Inductive Event :=
| Toasted (t : Toast)
| Navigated (path : string)
| Called (callback : string).

(** ** Answers of the store *)

(** The [{ data, error }] pair of a query: either the data or the error,
    of which the handlers read the message. *)
Inductive reply (A : Type) :=
| Data (data : A)
| Failed (message : string).
Arguments Data {A} data.
Arguments Failed {A} message.

(** The calls the handlers make. *)
Inductive Call :=
| ProfileOfUser        (* from("profiles").select(..).eq("user_id", ..).single() *)
| RoomsOfOwner         (* from("rooms").select("*").eq("owner_id", ..) *)
| RequestsOfOwner      (* from("requests").select(..).eq("owner_id", ..) *)
| ActiveRooms          (* from("rooms").select("*").eq("is_active", true) *)
| RoomById             (* from("rooms").select(..).eq("id", ..).single() *)
| InsertRequest        (* from("requests").insert([..]) *)
| UpdateRequest        (* from("requests").update({ status }).eq("id", ..) *)
| InsertRoom           (* from("rooms").insert([..]) *)
| DeleteRoom.          (* from("rooms").delete().eq("id", ..) *)

Definition Faults := Call -> option string.

Definition no_fault : Faults := fun _ => None.

(** [.single()]: exactly one row, or an error. *)
Definition single {A : Type} (r : reply (list A)) : reply A :=
  match r with
  | Data [row] => Data row
  | Data _ => Failed "JSON object requested, multiple (or no) rows returned"
  | Failed e => Failed e
  end.

(** [a || b] on strings: the empty string is the only falsy one. *)
Definition or_else (a b : string) : string :=
  match a with
  | EmptyString => b
  | _ => a
  end.

(** ** Computations that return or throw *)

(** A computation over a state [W] returns or throws, and leaves a state
    either way: what was done before a [throw] stays done. *)
Definition Eff (W A : Type) : Type := W -> reply A * W.

Definition ret {W A} (a : A) : Eff W A := fun w => (Data a, w).

Definition throw {W A} (message : string) : Eff W A := fun w => (Failed message, w).

Definition bind {W A B} (c : Eff W A) (k : A -> Eff W B) : Eff W B :=
  fun w =>
    match c w with
    | (Data a, w') => k a w'
    | (Failed e, w') => (Failed e, w')
    end.

Declare Scope eff_scope.
Delimit Scope eff_scope with eff.
Notation "x <- c ;; k" := (bind c (fun x => k))
  (at level 61, c at next level, right associativity) : eff_scope.
Notation "c ;; k" := (bind c (fun _ => k))
  (at level 61, right associativity) : eff_scope.
Local Open Scope eff_scope.

(** [try { body } catch (error) { handler(error.message) }] *)
Definition try_catch {W A} (body : Eff W A) (handler : string -> Eff W A) : Eff W A :=
  fun w =>
    match body w with
    | (Data a, w') => (Data a, w')
    | (Failed e, w') => handler e w'
    end.

(** [try { body } finally { cleanup }], for a cleanup that does not throw. *)
Definition finally {W A} (body : Eff W A) (cleanup : Eff W unit) : Eff W A :=
  fun w =>
    let (r, w') := body w in
    (r, snd (cleanup w')).

(** [if (error) throw error] *)
Definition throw_if_error {W A} (r : reply A) : Eff W A :=
  match r with
  | Data a => ret a
  | Failed e => throw e
  end.

(** [if (!x) throw new Error(message)] *)
Definition throw_if_null {W A} (x : option A) (message : string) : Eff W A :=
  match x with
  | Some a => ret a
  | None => throw message
  end.

(** The [data] of a [{ data, error }] pair: null when there is an error. *)
Definition data_of {A} (r : reply A) : option A :=
  match r with
  | Data a => Some a
  | Failed _ => None
  end.

Section Model.

(** The numbers of JavaScript: the rent of a room is carried from the form
    to the table and from the table to the page, nothing is computed on it. *)
Context {number : Type}.

(** The builtin that reads the rent typed into the form. *)
Variable parseFloat : string -> number.

(** [rooms(id, owner_id, address_line, city, district, taluka, state,
    pincode, landmark, rent, room_type, features jsonb, is_active)].
    [features] is an object of flags, kept as its entries. The column
    [images] is written by no handler and read by none; it is left out. *)
Record RoomRow := mkRoomRow {
  rooms_id : string;
  rooms_owner_id : string;
  rooms_address_line : string;
  rooms_city : string;
  rooms_district : string;
  rooms_taluka : string;
  rooms_state : string;
  rooms_pincode : string;
  rooms_landmark : string;
  rooms_rent : number;
  rooms_room_type : string;
  rooms_features : list (string * bool);
  rooms_is_active : bool
}.

(** The embedded resource [rooms (address_line, city, rent)]. *)
Record RoomSummary := mkRoomSummary {
  address_line : string;
  city : string;
  rent : number
}.

(** A row of the owner's feed:
    [*, tenant:profiles!requests_tenant_id_fkey (name, email, phone),
        room:rooms!requests_room_id_fkey (address_line, city, rent)].
    An embedded resource is null when the key resolves to no row. *)
Record Request := mkRequest {
  row : RequestRow;
  tenant : option Contact;
  room : option RoomSummary
}.

(** The room of the details page:
    [*, owner:profiles!rooms_owner_id_fkey (name, email, phone)]. *)
Record Room := mkRoom {
  room_row : RoomRow;
  owner : option Contact
}.

Record Database := mkDatabase {
  tbl_profiles : list Profile;
  tbl_rooms : list RoomRow;
  tbl_requests : list RequestRow
}.

(** The client: the session and the tables behind it. *)
Record Supabase := mkSupabase {
  auth_user : option User;
  db : Database
}.

Definition set_tbl_rooms (rs : list RoomRow) (d : Database) : Database :=
  mkDatabase (tbl_profiles d) rs (tbl_requests d).

Definition set_tbl_requests (rs : list RequestRow) (d : Database) : Database :=
  mkDatabase (tbl_profiles d) (tbl_rooms d) rs.

Definition set_db (d : Database) (sb : Supabase) : Supabase :=
  mkSupabase (auth_user sb) d.

(** Another browser on the same tables. *)
Definition signed_in_as (u : option User) (sb : Supabase) : Supabase :=
  mkSupabase u (db sb).


(** ** The world of a component *)

Record World (P : Type) := mkWorld {
  supabase : Supabase;
  ui : P;
  events : list Event
}.
Arguments mkWorld {P} supabase ui events.
Arguments supabase {P} w.
Arguments ui {P} w.
Arguments events {P} w.

Definition get_ui {P} : Eff (World P) P := fun w => (Data (ui w), w).

Definition modify_ui {P} (f : P -> P) : Eff (World P) unit :=
  fun w => (Data tt, mkWorld (supabase w) (f (ui w)) (events w)).

Definition get_db {P} : Eff (World P) Database :=
  fun w => (Data (db (supabase w)), w).

Definition put_db {P} (d : Database) : Eff (World P) unit :=
  fun w => (Data tt, mkWorld (set_db d (supabase w)) (ui w) (events w)).

Definition emit {P} (e : Event) : Eff (World P) unit :=
  fun w => (Data tt, mkWorld (supabase w) (ui w) (events w ++ [e])).

Definition toast {P} (t : Toast) : Eff (World P) unit := emit (Toasted t).

Definition navigate {P} (path : string) : Eff (World P) unit := emit (Navigated path).

(** [supabase.auth.getUser()] *)
Definition auth_getUser {P} : Eff (World P) (option User) :=
  fun w => (Data (auth_user (supabase w)), w).

(** ** Queries *)

(** The error the store answers each call with, if any. *)
Variable fault : Faults.

Definition answer {A} (c : Call) (a : A) : reply A :=
  match fault c with
  | Some e => Failed e
  | None => Data a
  end.

(** [from(table).select(cols).eq(..)]: the rows that pass the filter, in
    the order of the table, each with the selected columns. *)
Definition select_where {P A B} (c : Call) (table : Database -> list A)
    (cols : Database -> A -> B) (cond : A -> bool) : Eff (World P) (reply (list B)) :=
  d <- get_db ;;
  ret (answer c (map (cols d) (filter cond (table d)))).

(** A write is answered with an error and changes nothing, or is done. *)
Definition write {P} (c : Call) (f : Database -> Database) : Eff (World P) (reply unit) :=
  match fault c with
  | Some e => ret (Failed e)
  | None => d <- get_db ;; put_db (f d) ;; ret (Data tt)
  end.

Definition contact_of (p : Profile) : Contact :=
  mkContact (profiles_name p) (profiles_email p) (profiles_phone p).

(** [profiles!.._fkey (name, email, phone)] at the key [id]. *)
Definition embed_profile (d : Database) (id : string) : option Contact :=
  option_map contact_of (find (fun p => profiles_id p =? id) (tbl_profiles d)).

Definition summary_of (r : RoomRow) : RoomSummary :=
  mkRoomSummary (rooms_address_line r) (rooms_city r) (rooms_rent r).

(** [rooms!requests_room_id_fkey (address_line, city, rent)] at the key [id]. *)
Definition embed_room (d : Database) (id : string) : option RoomSummary :=
  option_map summary_of (find (fun r => rooms_id r =? id) (tbl_rooms d)).

Definition request_with_embeds (d : Database) (r : RequestRow) : Request :=
  mkRequest r (embed_profile d (requests_tenant_id r)) (embed_room d (requests_room_id r)).

Definition room_with_owner (d : Database) (r : RoomRow) : Room :=
  mkRoom r (embed_profile d (rooms_owner_id r)).

(** [from("profiles").select("id").eq("user_id", id).single()] *)
Definition profile_id_of_user {P} (id : string) : Eff (World P) (reply string) :=
  rows <- select_where ProfileOfUser tbl_profiles (fun _ p => profiles_id p)
            (fun p => profiles_user_id p =? id) ;;
  ret (single rows).

Definition set_status (status : string) (r : RequestRow) : RequestRow :=
  mkRequestRow (requests_id r) (requests_room_id r) (requests_tenant_id r)
    (requests_owner_id r) (requests_message r) status (requests_created_at r).

(** [from("requests").update({ status }).eq("id", requestId)] *)
Definition update_status (status requestId : string) (d : Database) : Database :=
  set_tbl_requests
    (map (fun r => if requests_id r =? requestId then set_status status r else r)
       (tbl_requests d)) d.

(** [from("requests").insert([r])] *)
Definition insert_request (r : RequestRow) (d : Database) : Database :=
  set_tbl_requests (tbl_requests d ++ [r]) d.

(** [from("rooms").insert([r])] *)
Definition insert_room (r : RoomRow) (d : Database) : Database :=
  set_tbl_rooms (tbl_rooms d ++ [r]) d.

(** [from("rooms").delete().eq("id", roomId)] *)
Definition delete_room (roomId : string) (d : Database) : Database :=
  set_tbl_rooms (filter (fun r => negb (rooms_id r =? roomId)) (tbl_rooms d)) d.

Definition error_toast (message : string) : Toast := mkToast "Error" message destructive.

Definition success_toast (message : string) : Toast := mkToast "Success" message default_variant.

(** ** OwnerDashboard.tsx *)

Record OwnerDashboardState := mkOwnerDashboardState {
  owner_rooms : list RoomRow;
  owner_requests : list Request;
  showAddRoom : bool
}.

Definition setRooms (v : list RoomRow) : Eff (World OwnerDashboardState) unit :=
  modify_ui (fun s => mkOwnerDashboardState v (owner_requests s) (showAddRoom s)).

Definition setRequests (v : list Request) : Eff (World OwnerDashboardState) unit :=
  modify_ui (fun s => mkOwnerDashboardState (owner_rooms s) v (showAddRoom s)).

Definition fetchOwnerData : Eff (World OwnerDashboardState) unit :=
  try_catch
    (user <- auth_getUser ;;
     user <- throw_if_null user "User not authenticated" ;;
     profile <- profile_id_of_user (user_id user) ;;
     profile_id <- throw_if_error profile ;;
     roomsData <- select_where RoomsOfOwner tbl_rooms (fun _ r => r)
                    (fun r => rooms_owner_id r =? profile_id) ;;
     roomsData <- throw_if_error roomsData ;;
     setRooms roomsData ;;
     requestsData <- select_where RequestsOfOwner tbl_requests request_with_embeds
                       (fun r => requests_owner_id r =? profile_id) ;;
     requestsData <- throw_if_error requestsData ;;
     setRequests requestsData)
    (fun _ => toast (error_toast "Failed to fetch data")).

Definition handleDeleteRoom (roomId : string) : Eff (World OwnerDashboardState) unit :=
  try_catch
    (done <- write DeleteRoom (delete_room roomId) ;;
     throw_if_error done ;;
     toast (success_toast "Room deleted successfully") ;;
     fetchOwnerData)
    (fun _ => toast (error_toast "Failed to delete room")).

(** The call of [fetchOwnerData] at the end is not awaited; it catches its
    own errors, and is run here right after the toast. *)
Definition handleRequestAction (requestId : string) (status : Decision)
    : Eff (World OwnerDashboardState) unit :=
  try_catch
    (done <- write UpdateRequest (update_status (decision_status status) requestId) ;;
     throw_if_error done ;;
     toast (success_toast ("Request " ++ decision_status status ++ " successfully")) ;;
     fetchOwnerData)
    (fun _ => toast (error_toast "Failed to update request")).

Definition getStatusColor (status : string) : string :=
  if status =? "pending" then "default"
  else if status =? "accepted" then "default"
  else if status =? "rejected" then "destructive"
  else "secondary".

(** What the dashboard renders of one request: the contact lines under
    [request.status === "accepted"], the two buttons under
    [request.status === "pending"]. A field read through [?.] is absent when
    the embedded resource is null. *)
Record RequestCard := mkRequestCard {
  card_name : option string;
  card_badge : string * string;
  card_place : option (string * string);
  card_rent : option number;
  card_contact : option (option string * option string);
  card_buttons : list Decision
}.

Definition renderRequest (request : Request) : RequestCard :=
  mkRequestCard
    (option_map name (tenant request))
    (getStatusColor (requests_status (row request)), requests_status (row request))
    (option_map (fun r => (address_line r, city r)) (room request))
    (option_map rent (room request))
    (if requests_status (row request) =? "accepted"
     then Some (option_map email (tenant request), option_map phone (tenant request))
     else None)
    (if requests_status (row request) =? "pending"
     then [accepted; rejected]
     else []).

(** The calls of [handleRequestAction] bound to the buttons on the page. *)
Definition offered (s : OwnerDashboardState) : list (string * Decision) :=
  flat_map
    (fun request => map (fun d => (requests_id (row request), d))
                      (card_buttons (renderRequest request)))
    (owner_requests s).

(** ** RoomDetails.tsx *)

Record RoomDetailsState := mkRoomDetailsState {
  details_room : option Room;
  details_message : string;
  details_loading : bool
}.

Definition setRoom (v : option Room) : Eff (World RoomDetailsState) unit :=
  modify_ui (fun s => mkRoomDetailsState v (details_message s) (details_loading s)).

Definition setMessage (v : string) : Eff (World RoomDetailsState) unit :=
  modify_ui (fun s => mkRoomDetailsState (details_room s) v (details_loading s)).

Definition setLoading (v : bool) : Eff (World RoomDetailsState) unit :=
  modify_ui (fun s => mkRoomDetailsState (details_room s) (details_message s) v).

(** [roomId] is the parameter of the route [/room/:roomId]. *)
Definition fetchRoomDetails (roomId : string) : Eff (World RoomDetailsState) unit :=
  try_catch
    (rows <- select_where RoomById tbl_rooms room_with_owner
               (fun r => rooms_id r =? roomId) ;;
     data <- throw_if_error (single rows) ;;
     setRoom (Some data))
    (fun _ =>
       toast (error_toast "Failed to fetch room details") ;;
       navigate "/tenant").

(** [gen] is what the store fills in for the columns the insert leaves out. *)
Definition handleSendRequest (gen : Generated) : Eff (World RoomDetailsState) unit :=
  s <- get_ui ;;
  match details_room s with
  | None => ret tt
  | Some room =>
    setLoading true ;;
    finally
      (try_catch
         (user <- auth_getUser ;;
          user <- throw_if_null user "Not authenticated" ;;
          profile <- profile_id_of_user (user_id user) ;;
          profile_id <- throw_if_null (data_of profile) "Profile not found" ;;
          done <- write InsertRequest
                    (insert_request
                       (mkRequestRow (gen_id gen)
                          (rooms_id (room_row room))
                          profile_id
                          (rooms_owner_id (room_row room))
                          (or_else (details_message s) "I'm interested in this room")
                          "pending"
                          (gen_created_at gen))) ;;
          throw_if_error done ;;
          toast (success_toast "Request sent successfully!") ;;
          setMessage "")
         (fun message => toast (error_toast message)))
      (setLoading false)
  end.

(** The page shows [Loading...] while there is no room, and the form with
    the button bound to [handleSendRequest] once there is one. *)
Definition send_button_shown (s : RoomDetailsState) : bool :=
  match details_room s with
  | None => false
  | Some _ => true
  end.

(** ** AddRoomForm.tsx *)

Record FormData := mkFormData {
  form_address_line : string;
  form_city : string;
  form_district : string;
  form_taluka : string;
  form_state : string;
  form_pincode : string;
  form_landmark : string;
  form_rent : string;
  form_room_type : string
}.

Record AddRoomFormState := mkAddRoomFormState {
  formData : FormData;
  features : list (string * bool);
  loading : bool
}.

Definition form_setLoading (v : bool) : Eff (World AddRoomFormState) unit :=
  modify_ui (fun s => mkAddRoomFormState (formData s) (features s) v).

(** [onSuccess] is a callback of the parent; calling it is logged. *)
Definition handleSubmit (gen : Generated) : Eff (World AddRoomFormState) unit :=
  form_setLoading true ;;
  finally
    (try_catch
       (user <- auth_getUser ;;
        user <- throw_if_null user "Not authenticated" ;;
        profile <- profile_id_of_user (user_id user) ;;
        profile_id <- throw_if_null (data_of profile) "Profile not found" ;;
        s <- get_ui ;;
        done <- write InsertRoom
                  (insert_room
                     (mkRoomRow (gen_id gen)
                        profile_id
                        (form_address_line (formData s))
                        (form_city (formData s))
                        (form_district (formData s))
                        (form_taluka (formData s))
                        (form_state (formData s))
                        (form_pincode (formData s))
                        (form_landmark (formData s))
                        (parseFloat (form_rent (formData s)))
                        (form_room_type (formData s))
                        (features s)
                        true)) ;;
        throw_if_error done ;;
        toast (success_toast "Room added successfully!") ;;
        emit (Called "onSuccess"))
       (fun message => toast (error_toast message)))
    (form_setLoading false).

(** ** The tenant dashboard *)

(** Of the state of the tenant dashboard, the rooms it lists. *)
Record TenantDashboardState := mkTenantDashboardState {
  tenant_rooms : list RoomRow
}.

Definition fetchRooms : Eff (World TenantDashboardState) unit :=
  try_catch
    (data <- select_where ActiveRooms tbl_rooms (fun _ r => r)
               (fun r => Bool.eqb (rooms_is_active r) true) ;;
     data <- throw_if_error data ;;
     modify_ui (fun _ => mkTenantDashboardState data))
    (fun _ => toast (error_toast "Failed to fetch rooms")).

Definition handleRoomClick (roomId : string) : Eff (World TenantDashboardState) unit :=
  navigate ("/room/" ++ roomId).

End Model.

Arguments mkWorld {number P} supabase ui events.
Arguments supabase {number P} w.
Arguments ui {number P} w.
Arguments events {number P} w.

(** ** The operations of the request workflow, from the handlers *)

Section Workflow.

Context {number : Type}.
Variable fault : Faults.

Local Abbreviation RoomRow := (@RoomRow number).
Local Abbreviation Request := (@Request number).
Local Abbreviation Room := (@Room number).
Local Abbreviation Database := (@Database number).
Local Abbreviation Supabase := (@Supabase number).
Local Abbreviation World := (@World number).
Local Abbreviation OwnerDashboardState := (@OwnerDashboardState number).
Local Abbreviation RoomDetailsState := (@RoomDetailsState number).
Local Abbreviation TenantDashboardState := (@TenantDashboardState number).

(** The profiles linked to the user [u], by their ids. *)
Definition linked_profiles (d : Database) (u : User) : list string :=
  map profiles_id (filter (fun p => profiles_user_id p =? user_id u) (tbl_profiles d)).

(** The rooms the id [roomId] resolves to. *)
Definition rooms_with_id (d : Database) (roomId : string) : list RoomRow :=
  filter (fun r => rooms_id r =? roomId) (tbl_rooms d).

(** The answer of the profile query for the user [u]. *)
Definition profile_reply (d : Database) (u : User) : reply string :=
  match fault ProfileOfUser with
  | Some e => Failed e
  | None => single (Data (linked_profiles d u))
  end.

(** The requests of the profile [pid], with their embedded resources. *)
Definition feed (d : Database) (pid : string) : list Request :=
  map (request_with_embeds d) (filter (fun r => requests_owner_id r =? pid) (tbl_requests d)).

(** The rooms of the profile [pid]. *)
Definition own_rooms (d : Database) (pid : string) : list RoomRow :=
  filter (fun r => rooms_owner_id r =? pid) (tbl_rooms d).

(** The way out of [fetchOwnerData] through its [catch], with the page [s]. *)
Definition fetch_failed (w : World OwnerDashboardState) (s : OwnerDashboardState)
    : reply unit * World OwnerDashboardState :=
  (Data tt,
   mkWorld (supabase w) s (events w ++ [Toasted (error_toast "Failed to fetch data")])%list).

(** The row [handleSendRequest] inserts for the room [room], the profile
    [pid] and the typed text [message]. *)
Definition new_request (gen : Generated) (room : Room) (pid message : string) : RequestRow :=
  mkRequestRow (gen_id gen) (rooms_id (room_row room)) pid (rooms_owner_id (room_row room))
    (or_else message "I'm interested in this room") "pending" (gen_created_at gen).

(** The row [handleSubmit] inserts for the profile [pid] and the form [s]. *)
Definition new_room (parseFloat : string -> number) (gen : Generated) (pid : string)
    (s : AddRoomFormState) : RoomRow :=
  mkRoomRow (gen_id gen) pid (form_address_line (formData s)) (form_city (formData s))
    (form_district (formData s)) (form_taluka (formData s)) (form_state (formData s))
    (form_pincode (formData s)) (form_landmark (formData s))
    (parseFloat (form_rent (formData s))) (form_room_type (formData s)) (features s) true.

(** The details page at rest, with the text [message] in the box. *)
Definition at_rest (s : RoomDetailsState) (message : string) : RoomDetailsState :=
  mkRoomDetailsState (details_room s) message false.

Definition empty_details : RoomDetailsState := mkRoomDetailsState None "" false.

Definition empty_dashboard : OwnerDashboardState := mkOwnerDashboardState [] [] false.

(** A tenant opens the page of the room [roomId], types [message] and
    presses the button, if there is one. *)
Definition create (gen : Generated) (roomId message : string) (sb : Supabase)
    : World RoomDetailsState :=
  let w1 := snd (fetchRoomDetails fault roomId (mkWorld sb empty_details [])) in
  if send_button_shown (ui w1)
  then snd ((setMessage message ;; handleSendRequest fault gen) w1)
  else w1.

(** An owner opens the dashboard: the feed is what [fetchOwnerData] loads. *)
Definition listForOwner (sb : Supabase) : World OwnerDashboardState :=
  snd (fetchOwnerData fault (mkWorld sb empty_dashboard [])).

(** The owner presses the button [status] of the request [requestId], on a
    dashboard in the state [s]. *)
Definition decide (requestId : string) (status : Decision)
    (s : OwnerDashboardState) (sb : Supabase) : World OwnerDashboardState :=
  snd (handleRequestAction fault requestId status (mkWorld sb s [])).

(** A tenant opens the dashboard: the listing is what [fetchRooms] loads. *)
Definition listRooms (sb : Supabase) : World TenantDashboardState :=
  snd (fetchRooms fault (mkWorld sb (mkTenantDashboardState []) [])).

(** An owner submits the form [form] of the add-room dialog. *)
Definition addRoom (parseFloat : string -> number) (gen : Generated)
    (form : AddRoomFormState) (sb : Supabase) : World AddRoomFormState :=
  snd (handleSubmit parseFloat fault gen (mkWorld sb form [])).

(** The same tables with other [is_active] flags. *)
Definition set_is_active (v : bool) (r : RoomRow) : RoomRow :=
  mkRoomRow (rooms_id r) (rooms_owner_id r) (rooms_address_line r) (rooms_city r)
    (rooms_district r) (rooms_taluka r) (rooms_state r) (rooms_pincode r)
    (rooms_landmark r) (rooms_rent r) (rooms_room_type r) (rooms_features r) v.

Definition with_flags (flag : RoomRow -> bool) (sb : Supabase) : Supabase :=
  set_db (set_tbl_rooms (map (fun r => set_is_active (flag r) r) (tbl_rooms (db sb))) (db sb)) sb.

End Workflow.

(** ** A small instance *)

Module Sample.

(** A number stood for by its decimal text. *)
Definition literal (s : string) : string := s.

Definition tina : Profile :=
  mkProfile "p-tina" "u-tina" "tenant" "Tina" "tina@example.org" "555-0101".

Definition omar : Profile :=
  mkProfile "p-omar" "u-omar" "owner" "Omar" "omar@example.org" "555-0202".

Definition olga : Profile :=
  mkProfile "p-olga" "u-olga" "owner" "Olga" "olga@example.org" "555-0303".

Definition flat (active : bool) : @RoomRow string :=
  mkRoomRow "room-1" "p-omar" "1 Main Street" "Pune" "Pune" "Haveli" "MH"
    "411001" "" "5000" "both" [("wifi", true)] active.

Definition ask (id status : string) : RequestRow :=
  mkRequestRow id "room-1" "p-tina" "p-omar" "hello" status "2024-01-01".

Definition tables (active : bool) (rs : list RequestRow) : @Database string :=
  mkDatabase [tina; omar; olga] [flat active] rs.

Definition browser (u : string) (d : @Database string) : @Supabase string :=
  mkSupabase (Some (mkUser u)) d.

(** The page of [flat] as loaded, with nothing typed. *)
Definition flat_loaded (d : @Database string) : Room := room_with_owner d (flat true).

Definition page_of_flat (sb : @Supabase string) : World RoomDetailsState :=
  mkWorld sb (mkRoomDetailsState (Some (flat_loaded (db sb))) "" false) [].

Definition stamp : Generated := mkGenerated "req-1" "2024-01-01".

Definition new_room_form : AddRoomFormState :=
  mkAddRoomFormState
    (mkFormData "2 Side Street" "Pune" "Pune" "Haveli" "MH" "411002" "" "4500" "student")
    [("wifi", true); ("electricity", true); ("water", true);
     ("parking", false); ("furnished", false); ("security", false)]
    false.

End Sample.

(** ** The rest of the components *)

(** [requiredRole?: "tenant" | "owner"] *)
Inductive Role := tenant_role | owner_role.

Definition role_name (r : Role) : string :=
  match r with
  | tenant_role => "tenant"
  | owner_role => "owner"
  end.

(** What [AuthGuard] returns: the loading screen, [null], [null] after a
    call of [navigate], or its children. *)
Inductive GuardView :=
| Spinner
| Blank
| Redirected (path : string)
| Children.

(** The pages of [App.tsx]. *)
Inductive Page :=
| AuthPage
| TenantDashboardPage
| OwnerDashboardPage
| RoomDetailsPage (roomId : string)
| NotFoundPage.

(** The [requiredRole] of the [AuthGuard] around a page, if there is one. *)
Definition guard_of (p : Page) : option Role :=
  match p with
  | AuthPage => None
  | TenantDashboardPage => Some tenant_role
  | OwnerDashboardPage => Some owner_role
  | RoomDetailsPage _ => Some tenant_role
  | NotFoundPage => None
  end.

(** The routes at the paths the components navigate to. *)
Definition page_at (path : string) : option Page :=
  if path =? "/" then Some AuthPage
  else if path =? "/tenant" then Some TenantDashboardPage
  else if path =? "/owner" then Some OwnerDashboardPage
  else None.

(** A string in a condition: the empty string is the only falsy one. *)
Definition truthy (s : string) : bool :=
  match s with
  | EmptyString => false
  | _ => true
  end.

(** *** Keys of an object *)

Definition digit_value (a : Ascii.ascii) : option N :=
  let n := Ascii.N_of_ascii a in
  if ((48 <=? n) && (n <=? 57))%N then Some (n - 48)%N else None.

Fixpoint digits_value (acc : N) (s : string) : option N :=
  match s with
  | EmptyString => Some acc
  | String a rest =>
    match digit_value a with
    | Some v => digits_value (10 * acc + v)%N rest
    | None => None
    end
  end.

(** An array index: the decimal text, without leading zeros, of an integer
    below 2^32 - 1. Such keys come first in an object, in ascending order;
    the other keys follow in the order they were added. *)
Definition array_index (key : string) : option N :=
  match key with
  | EmptyString => None
  | String a rest =>
    if Ascii.eqb a "0"%char
    then match rest with EmptyString => Some 0%N | _ => None end
    else match digits_value 0 key with
         | Some n => if (n <? 4294967295)%N then Some n else None
         | None => None
         end
  end.

Definition has_key {V} (key : string) (entries : list (string * V)) : bool :=
  existsb (fun e => fst e =? key) entries.

Fixpoint insert_index {V} (n : N) (key : string) (v : V) (entries : list (string * V))
    : list (string * V) :=
  match entries with
  | [] => [(key, v)]
  | e :: rest =>
    match array_index (fst e) with
    | Some m => if (m <? n)%N then e :: insert_index n key v rest
                else (key, v) :: e :: rest
    | None => (key, v) :: e :: rest
    end
  end.

(** [{ ...prev, [key]: v }] on the entries of [prev]. *)
Definition spread_with {V} (key : string) (v : V) (prev : list (string * V))
    : list (string * V) :=
  if has_key key prev
  then map (fun e => if fst e =? key then (fst e, v) else e) prev
  else match array_index key with
       | Some n => insert_index n key v prev
       | None => prev ++ [(key, v)]
       end.

(** [object[key]] *)
Definition get_key {V} (key : string) (entries : list (string * V)) : option V :=
  option_map snd (find (fun e => fst e =? key) entries).

(** *** AddRoomForm.tsx: the inputs *)

(** The state the form starts in. *)
Definition empty_form : AddRoomFormState :=
  mkAddRoomFormState
    (mkFormData "" "" "" "" "" "" "" "" "")
    [("wifi", false); ("electricity", false); ("water", false);
     ("parking", false); ("furnished", false); ("security", false)]
    false.

(** [{ ...prev, [field]: value }] on the form data. The page reads and
    [handleSubmit] sends the nine fields of [FormData]; a key besides them
    is read by nothing and is not kept. *)
Definition set_field (field value : string) (f : FormData) : FormData :=
  mkFormData
    (if field =? "address_line" then value else form_address_line f)
    (if field =? "city" then value else form_city f)
    (if field =? "district" then value else form_district f)
    (if field =? "taluka" then value else form_taluka f)
    (if field =? "state" then value else form_state f)
    (if field =? "pincode" then value else form_pincode f)
    (if field =? "landmark" then value else form_landmark f)
    (if field =? "rent" then value else form_rent f)
    (if field =? "room_type" then value else form_room_type f).

Section Components.

Context {number : Type}.
Variable fault : Faults.

Local Abbreviation RoomRow := (@RoomRow number).
Local Abbreviation Request := (@Request number).
Local Abbreviation Room := (@Room number).
Local Abbreviation Database := (@Database number).
Local Abbreviation Supabase := (@Supabase number).
Local Abbreviation World := (@World number).
Local Abbreviation OwnerDashboardState := (@OwnerDashboardState number).
Local Abbreviation RoomDetailsState := (@RoomDetailsState number).
Local Abbreviation TenantDashboardState := (@TenantDashboardState number).

Definition handleInputChange (field value : string) : Eff (World AddRoomFormState) unit :=
  modify_ui (fun s => mkAddRoomFormState (set_field field value (formData s)) (features s) (loading s)).

Definition handleFeatureChange (feature : string) (checked : bool)
    : Eff (World AddRoomFormState) unit :=
  modify_ui (fun s => mkAddRoomFormState (formData s) (spread_with feature checked (features s)) (loading s)).

(** What the owner does to the form before submitting. *)
Inductive Input :=
| Typed (field value : string)
| Checked (feature : string) (checked : bool).

Definition input (i : Input) : Eff (World AddRoomFormState) unit :=
  match i with
  | Typed field value => handleInputChange field value
  | Checked feature checked => handleFeatureChange feature checked
  end.

Fixpoint inputs (l : list Input) : Eff (World AddRoomFormState) unit :=
  match l with
  | [] => ret tt
  | i :: rest => input i ;; inputs rest
  end.

(** The owner opens the dialog, fills the form in and submits it. *)
Definition fillAndSubmit (parseFloat : string -> number) (gen : Generated)
    (l : list Input) (sb : Supabase) : World AddRoomFormState :=
  snd ((inputs l ;; handleSubmit parseFloat fault gen) (mkWorld sb empty_form [])).

(** *** OwnerDashboard.tsx: deleting a room *)

(** The owner presses the delete button of the room [roomId], on a
    dashboard in the state [s]. *)
Definition deleteRoom (roomId : string) (s : OwnerDashboardState) (sb : Supabase)
    : World OwnerDashboardState :=
  snd (handleDeleteRoom fault roomId (mkWorld sb s [])).

(** *** RoomDetails.tsx: the page *)

(** A tenant opens the page of the room [roomId]. *)
Definition openRoom (roomId : string) (sb : Supabase) : World RoomDetailsState :=
  snd (fetchRoomDetails fault roomId (mkWorld sb empty_details [])).

(** *** AuthGuard.tsx *)

Record AuthGuardState := mkAuthGuardState {
  guard_user : option User;
  userRole : option string;
  guard_loading : bool
}.

Definition setUser (v : option User) : Eff (World AuthGuardState) unit :=
  modify_ui (fun s => mkAuthGuardState v (userRole s) (guard_loading s)).

Definition setUserRole (v : option string) : Eff (World AuthGuardState) unit :=
  modify_ui (fun s => mkAuthGuardState (guard_user s) v (guard_loading s)).

Definition guard_setLoading (v : bool) : Eff (World AuthGuardState) unit :=
  modify_ui (fun s => mkAuthGuardState (guard_user s) (userRole s) v).

(** [from("profiles").select("role").eq("user_id", id).single()] *)
Definition profile_role_of_user {P} (id : string) : Eff (World P) (reply string) :=
  rows <- select_where fault ProfileOfUser tbl_profiles (fun _ p => profiles_role p)
            (fun p => profiles_user_id p =? id) ;;
  ret (single rows).

(** The branch [if (session?.user)] of both effects. *)
Definition load_role (user : User) : Eff (World AuthGuardState) unit :=
  setUser (Some user) ;;
  profile <- profile_role_of_user (user_id user) ;;
  match data_of profile with
  | Some role => setUserRole (Some role)
  | None => ret tt
  end.

(** The session of [supabase.auth.getSession()] is the one of the client. *)
Definition checkAuth : Eff (World AuthGuardState) unit :=
  session <- auth_getUser ;;
  match session with
  | Some user => load_role user
  | None => navigate "/"
  end ;;
  guard_setLoading false.

(** The callback of [supabase.auth.onAuthStateChange], with the [user] of
    the session it is called with. *)
Definition onAuthStateChange (session : option User) : Eff (World AuthGuardState) unit :=
  match session with
  | Some user => load_role user
  | None => setUser None ;; setUserRole None ;; navigate "/"
  end ;;
  guard_setLoading false.

(** The body of the component after its hooks. *)
Definition guard_render (requiredRole : option Role) (s : AuthGuardState) : GuardView :=
  if guard_loading s then Spinner
  else
    match guard_user s, userRole s with
    | Some _, Some role =>
      if truthy role then
        match requiredRole with
        | Some required =>
          if role =? role_name required then Children
          else Redirected (if role =? "tenant" then "/tenant" else "/owner")
        | None => Children
        end
      else Blank
    | _, _ => Blank
    end.

Definition guard_mounting : AuthGuardState := mkAuthGuardState None None true.

(** The effect of the component when it mounts: it calls [checkAuth] and
    registers the listener, which the auth client calls at subscription with
    the session of the client. Both read the same session and the same
    answer of the store, so the order in which they finish does not show. *)
Definition guard_mount : Eff (World AuthGuardState) unit :=
  checkAuth ;;
  session <- auth_getUser ;;
  onAuthStateChange session.

(** A browser opens a page: a page without a guard is shown, a page with a
    guard gets what the guard returns once the effect of its mount is
    through. *)
Definition visit (p : Page) (sb : Supabase) : GuardView * list Event :=
  match guard_of p with
  | None => (Children, [])
  | Some required =>
    let w := snd (guard_mount (mkWorld sb guard_mounting [])) in
    (guard_render (Some required) (ui w), events w)
  end.

(** *** The tenant dashboard: the search *)

(** [rent <= budget] as the store decides it. *)
Variable lte : number -> number -> bool.

(** The store's reading of the text of an [or] filter: the rows it keeps,
    or an error when it does not take the text. *)
Variable postgrest_or : string -> reply (RoomRow -> bool).

(** The inputs of the search the handler reads. [budget_0] is [budget[0]],
    which the page shows in its label. *)
Record SearchForm := mkSearchForm {
  searchLocation : string;
  budget_0 : number;
  roomType : string
}.

Definition location_filter (f : SearchForm) : reply (RoomRow -> bool) :=
  if truthy (searchLocation f)
  then postgrest_or ("city.ilike.%" ++ searchLocation f ++ "%,landmark.ilike.%"
                     ++ searchLocation f ++ "%")
  else Data (fun _ => true).

Definition type_filter (f : SearchForm) (r : RoomRow) : bool :=
  if roomType f =? "both" then true else rooms_room_type r =? roomType f.

Definition handleSearch (f : SearchForm) : Eff (World TenantDashboardState) unit :=
  try_catch
    (data <- match location_filter f with
             | Failed e => ret (Failed e)
             | Data keep =>
               select_where fault ActiveRooms tbl_rooms (fun _ r => r)
                 (fun r => Bool.eqb (rooms_is_active r) true
                           && lte (rooms_rent r) (budget_0 f)
                           && keep r
                           && type_filter f r)
             end ;;
     data <- throw_if_error data ;;
     modify_ui (fun _ => mkTenantDashboardState data))
    (fun _ => toast (error_toast "Search failed")).

(** A tenant presses the search button, on a dashboard listing [listed]. *)
Definition search (f : SearchForm) (listed : list RoomRow) (sb : Supabase)
    : World TenantDashboardState :=
  snd (handleSearch f (mkWorld sb (mkTenantDashboardState listed) [])).

End Components.

(** *** Words for the statements *)

Section Vocabulary.

Context {number : Type}.

Local Abbreviation Database := (@Database number).
Local Abbreviation Supabase := (@Supabase number).

(** The dashboard of the user [u], who has the one profile [pid], loads. *)
Definition loads (fault : Faults) (sb : Supabase) (u : User) (pid : string) : Prop :=
  auth_user sb = Some u /\ linked_profiles (db sb) u = [pid] /\
  fault ProfileOfUser = None /\ fault RoomsOfOwner = None /\
  fault RequestsOfOwner = None.

(** The user [u] can write as the one profile [pid]. *)
Definition acts_as (fault : Faults) (sb : Supabase) (u : User) (pid : string) : Prop :=
  auth_user sb = Some u /\ linked_profiles (db sb) u = [pid] /\
  fault ProfileOfUser = None.

(** The roles of the profiles linked to the user [u]. *)
Definition linked_roles (d : Database) (u : User) : list string :=
  map profiles_role (filter (fun p => profiles_user_id p =? user_id u) (tbl_profiles d)).

(** A request without its status. *)
Definition without_status (r : RequestRow) : RequestRow := set_status "" r.

(** The text of the field [field] after the inputs [l]: the last one typed. *)
Fixpoint last_typed (field : string) (l : list Input) (start : string) : string :=
  match l with
  | [] => start
  | Typed f v :: rest => last_typed field rest (if f =? field then v else start)
  | Checked _ _ :: rest => last_typed field rest start
  end.

(** The flag [feature] after the inputs [l]: the last one checked. *)
Fixpoint last_checked (feature : string) (l : list Input) (start : option bool) : option bool :=
  match l with
  | [] => start
  | Typed _ _ :: rest => last_checked feature rest start
  | Checked f v :: rest => last_checked feature rest (if f =? feature then Some v else start)
  end.

(** The names of the checkboxes of the form. *)
Definition feature_names : list string :=
  ["wifi"; "electricity"; "water"; "parking"; "furnished"; "security"].

(** The features the inputs [l] check are features of the form. *)
Definition checks_known (l : list Input) : Prop :=
  forall f v, In (Checked f v) l -> In f feature_names.

(** The form after the inputs [l]. *)
Fixpoint filled (l : list Input) (s : AddRoomFormState) : AddRoomFormState :=
  match l with
  | [] => s
  | Typed field value :: rest =>
    filled rest (mkAddRoomFormState (set_field field value (formData s)) (features s) (loading s))
  | Checked feature checked :: rest =>
    filled rest (mkAddRoomFormState (formData s) (spread_with feature checked (features s))
                   (loading s))
  end.

(** The card "Owner Information" of the room page: [room.owner?.name],
    [room.owner?.email] and [room.owner?.phone]. *)
Definition owner_card (room : @Room number) : option string * option string * option string :=
  (option_map name (owner room), option_map email (owner room), option_map phone (owner room)).

(** The status of a request is one of the three the handlers write. *)
Definition known_status (r : RequestRow) : Prop :=
  requests_status r = "pending" \/ requests_status r = "accepted" \/
  requests_status r = "rejected".

(** What tenants and owners do to the tables, each in a browser with a
    session of its own and answers of the store of its own. Deleting a room
    is left out: what the store does to the requests of a deleted room is
    not in the sources. *)
Inductive Action :=
| Sends (fault : Faults) (session : option User) (gen : Generated) (roomId message : string)
| Decides (fault : Faults) (session : option User) (requestId : string) (status : Decision)
| Adds (fault : Faults) (session : option User) (gen : Generated) (form : AddRoomFormState).

Definition act (parseFloat : string -> number) (a : Action) (d : Database) : Database :=
  match a with
  | Sends fault session gen roomId message =>
    db (supabase (create fault gen roomId message (mkSupabase session d)))
  | Decides fault session requestId status =>
    db (supabase (decide fault requestId status empty_dashboard (mkSupabase session d)))
  | Adds fault session gen form =>
    db (supabase (addRoom fault parseFloat gen form (mkSupabase session d)))
  end.

Fixpoint acts (parseFloat : string -> number) (l : list Action) (d : Database) : Database :=
  match l with
  | [] => d
  | a :: rest => acts parseFloat rest (act parseFloat a d)
  end.

End Vocabulary.

Module Cases.

Import Sample.

(** The value of a decimal text, and the order on such texts. *)
Definition value_of (s : string) : N :=
  match digits_value 0 s with
  | Some n => n
  | None => 0%N
  end.

Definition literal_lte (a b : string) : bool := (value_of a <=? value_of b)%N.

(** A store that takes no [or] filter. *)
Definition no_or (filter : string) : reply (@RoomRow string -> bool) :=
  Failed "failed to parse logic tree".

Definition cheap (active : bool) : @RoomRow string :=
  mkRoomRow "room-2" "p-olga" "2 Side Street" "Nashik" "Nashik" "Nashik" "MH"
    "422001" "" "3000" "student" [("wifi", false); ("water", true)] active.

Definition market (rs : list RequestRow) : @Database string :=
  mkDatabase [tina; omar; olga] [flat true; cheap true] rs.

Definition admin : Profile :=
  mkProfile "p-ada" "u-ada" "admin" "Ada" "ada@example.org" "555-0404".

Definition staffed : @Database string :=
  mkDatabase [tina; omar; admin] [flat true] [].

Definition typed_form : list Input :=
  [Typed "address_line" "2 Side Street"; Typed "city" "Pune"; Typed "rent" "4500";
   Typed "room_type" "student"; Checked "wifi" true; Checked "water" true;
   Checked "wifi" false].

(** A store that fails the query of the requests, and answers the rest. *)
Definition requests_down : Faults :=
  fun c => match c with RequestsOfOwner => Some "timeout" | _ => None end.

(** A store that refuses the insert of a request, and answers the rest. *)
Definition insert_refused : Faults :=
  fun c => match c with InsertRequest => Some "violates row-level security" | _ => None end.

(** A store that fails the query of the room of a page. *)
Definition room_query_down : Faults :=
  fun c => match c with RoomById => Some "timeout" | _ => None end.

(** A store that fails the listing of the rooms. *)
Definition rooms_down : Faults :=
  fun c => match c with ActiveRooms => Some "timeout" | _ => None end.

Definition stamp' : Generated := mkGenerated "req-2" "2024-01-02".

Definition room_stamp : Generated := mkGenerated "room-3" "".

(** A guard that has shown an owner's page to Omar. *)
Definition omar_passed (d : @Database string) : World AuthGuardState :=
  mkWorld (browser "u-omar" d) (mkAuthGuardState (Some (mkUser "u-omar")) (Some "owner") false) [].

Definition history : list Action :=
  [Sends no_fault (Some (mkUser "u-tina")) stamp "room-1" "hello";
   Decides no_fault (Some (mkUser "u-omar")) "req-1" accepted;
   Adds no_fault (Some (mkUser "u-omar")) room_stamp new_room_form;
   Decides no_fault None "req-1" rejected].

End Cases.

(** * Properties *)

Local Open Scope list_scope.

(** ** Lists of rows *)

Lemma filter_nil_iff {A} (f : A -> bool) (l : list A) :
  (forall a, In a l -> f a = false) -> filter f l = [].
Proof.
  induction l as [|a l IH]; intros H; cbn; [reflexivity|].
  rewrite (H a (or_introl eq_refl)). apply IH. intros b Hb. apply H. now right.
Qed.

Lemma filter_map_swap {A} (f : A -> bool) (g : A -> A) (l : list A) :
  (forall a, f (g a) = f a) -> filter f (map g l) = map g (filter f l).
Proof.
  intros Hfg. induction l as [|a l IH]; cbn; [reflexivity|].
  rewrite Hfg. destruct (f a); cbn; now rewrite IH.
Qed.

Lemma filter_singleton_In {A} (f : A -> bool) (l : list A) (a : A) :
  filter f l = [a] -> In a l /\ f a = true.
Proof.
  intros H. apply filter_In. rewrite H. now left.
Qed.

Lemma NoDup_map_inj {A B} (f : A -> B) (l : list A) (a b : A) :
  NoDup (map f l) -> In a l -> In b l -> f a = f b -> a = b.
Proof.
  induction l as [|x l IH]; cbn; intros Hnd Ha Hb Hab; [contradiction|].
  inversion Hnd as [|y ys Hx Hnd']; subst.
  destruct Ha as [->|Ha], Hb as [->|Hb]; auto.
  - exfalso. apply Hx. rewrite Hab. now apply in_map.
  - exfalso. apply Hx. rewrite <- Hab. now apply in_map.
Qed.

Lemma Forall2_map_r_self {A} (R : A -> A -> Prop) (g : A -> A) (l : list A) :
  (forall a, In a l -> R a (g a)) -> Forall2 R l (map g l).
Proof.
  induction l as [|a l IH]; intros H; cbn; constructor.
  - apply H. now left.
  - apply IH. intros b Hb. apply H. now right.
Qed.

(** ** What each handler does, case by case *)

Section Runs.

Context {number : Type}.
Variable fault : Faults.

Local Abbreviation RoomRow := (@RoomRow number).
Local Abbreviation Request := (@Request number).
Local Abbreviation Room := (@Room number).
Local Abbreviation Database := (@Database number).
Local Abbreviation Supabase := (@Supabase number).
Local Abbreviation World := (@World number).
Local Abbreviation OwnerDashboardState := (@OwnerDashboardState number).
Local Abbreviation RoomDetailsState := (@RoomDetailsState number).
Local Abbreviation TenantDashboardState := (@TenantDashboardState number).

Implicit Types (d : Database) (sb : Supabase) (u : User) (pid roomId : string).

Ltac run :=
  unfold profile_id_of_user, select_where, write, try_catch, finally, bind, ret,
    throw, throw_if_null, throw_if_error, data_of, get_ui, get_db, put_db,
    modify_ui, setLoading, setMessage, setRoom, setRooms, setRequests,
    form_setLoading, toast, navigate, emit, auth_getUser, answer; cbn.

Lemma profile_id_of_user_run {P} (u : User) (w : World P) :
  profile_id_of_user fault (user_id u) w = (Data (profile_reply fault (db (supabase w)) u), w).
Proof.
  unfold profile_reply, linked_profiles. run.
  destruct (fault ProfileOfUser); reflexivity.
Qed.

Lemma profile_reply_one d u pid :
  fault ProfileOfUser = None -> linked_profiles d u = [pid] ->
  profile_reply fault d u = Data pid.
Proof. intros Hf Hl. unfold profile_reply. now rewrite Hf, Hl. Qed.

Lemma profile_reply_none d u :
  linked_profiles d u = [] -> data_of (profile_reply fault d u) = None.
Proof.
  intros Hl. unfold profile_reply. rewrite Hl.
  destruct (fault ProfileOfUser); reflexivity.
Qed.

Lemma profile_reply_data d u pid :
  profile_reply fault d u = Data pid ->
  fault ProfileOfUser = None /\ linked_profiles d u = [pid].
Proof.
  unfold profile_reply. destruct (fault ProfileOfUser); [discriminate|].
  destruct (linked_profiles d u) as [|x [|y l]]; cbn; try discriminate.
  intros [= ->]. now split.
Qed.

Lemma fetchOwnerData_run (w : World OwnerDashboardState) :
  fetchOwnerData fault w =
  let d := db (supabase w) in
  let s := ui w in
  match auth_user (supabase w) with
  | None => fetch_failed w s
  | Some u =>
    match profile_reply fault d u with
    | Failed _ => fetch_failed w s
    | Data pid =>
      match fault RoomsOfOwner with
      | Some _ => fetch_failed w s
      | None =>
        let s1 := mkOwnerDashboardState (own_rooms d pid) (owner_requests s) (showAddRoom s) in
        match fault RequestsOfOwner with
        | Some _ => fetch_failed w s1
        | None =>
          (Data tt,
           mkWorld (supabase w)
             (mkOwnerDashboardState (own_rooms d pid) (feed d pid) (showAddRoom s))
             (events w))
        end
      end
    end
  end.
Proof.
  unfold fetchOwnerData, fetch_failed, feed, own_rooms.
  unfold try_catch at 1. unfold bind at 1. unfold auth_getUser at 1.
  destruct (auth_user (supabase w)) as [u|] eqn:Hu; [|reflexivity].
  unfold throw_if_null at 1, ret at 1, bind at 1.
  unfold bind at 1. rewrite profile_id_of_user_run.
  destruct (profile_reply fault (db (supabase w)) u) as [pid|e]; [|reflexivity].
  run. rewrite map_id.
  destruct (fault RoomsOfOwner); [reflexivity|]. run.
  destruct (fault RequestsOfOwner); reflexivity.
Qed.

Lemma fetchOwnerData_returns (w : World OwnerDashboardState) :
  fst (fetchOwnerData fault w) = Data tt.
Proof.
  rewrite fetchOwnerData_run. cbn. unfold fetch_failed.
  destruct (auth_user (supabase w)); [|reflexivity].
  destruct (profile_reply fault _ _); [|reflexivity].
  destruct (fault RoomsOfOwner); [reflexivity|].
  destruct (fault RequestsOfOwner); reflexivity.
Qed.

Lemma fetchOwnerData_supabase (w : World OwnerDashboardState) :
  supabase (snd (fetchOwnerData fault w)) = supabase w.
Proof.
  rewrite fetchOwnerData_run. cbn. unfold fetch_failed.
  destruct (auth_user (supabase w)); [|reflexivity].
  destruct (profile_reply fault _ _); [|reflexivity].
  destruct (fault RoomsOfOwner); [reflexivity|].
  destruct (fault RequestsOfOwner); reflexivity.
Qed.

Lemma fetchOwnerData_events (w : World OwnerDashboardState) :
  exists more, events (snd (fetchOwnerData fault w)) = events w ++ more.
Proof.
  rewrite fetchOwnerData_run. cbn. unfold fetch_failed.
  destruct (auth_user (supabase w)); [|eexists; reflexivity].
  destruct (profile_reply fault _ _); [|eexists; reflexivity].
  destruct (fault RoomsOfOwner); [eexists; reflexivity|].
  destruct (fault RequestsOfOwner); [eexists; reflexivity|].
  exists []. cbn. now rewrite app_nil_r.
Qed.

Lemma handleRequestAction_run requestId (status : Decision) (w : World OwnerDashboardState) :
  handleRequestAction fault requestId status w =
  match fault UpdateRequest with
  | Some _ =>
    (Data tt,
     mkWorld (supabase w) (ui w)
       (events w ++ [Toasted (error_toast "Failed to update request")]))
  | None =>
    fetchOwnerData fault
      (mkWorld
         (set_db (update_status (decision_status status) requestId (db (supabase w)))
            (supabase w))
         (ui w)
         (events w ++
          [Toasted (success_toast
                      ("Request " ++ decision_status status ++ " successfully")%string)]))
  end.
Proof.
  unfold handleRequestAction. unfold try_catch, bind at 1, write.
  destruct (fault UpdateRequest) as [e|].
  - reflexivity.
  - run.
    match goal with |- context [fetchOwnerData fault ?x] => set (w1 := x) end.
    pose proof (fetchOwnerData_returns w1) as Hr.
    destruct (fetchOwnerData fault w1) as [r w2]. cbn in Hr. subst r. reflexivity.
Qed.

Lemma fetchRoomDetails_run roomId (w : World RoomDetailsState) :
  fetchRoomDetails fault roomId w =
  let d := db (supabase w) in
  match single (answer fault RoomById (map (room_with_owner d) (rooms_with_id d roomId))) with
  | Data data =>
    (Data tt,
     mkWorld (supabase w)
       (mkRoomDetailsState (Some data) (details_message (ui w)) (details_loading (ui w)))
       (events w))
  | Failed _ =>
    (Data tt,
     mkWorld (supabase w) (ui w)
       (events w ++ [Toasted (error_toast "Failed to fetch room details");
                     Navigated "/tenant"]))
  end.
Proof.
  unfold fetchRoomDetails, rooms_with_id. run.
  destruct (single _); cbn; [reflexivity|].
  now rewrite <- app_assoc.
Qed.

Lemma handleSendRequest_run gen (w : World RoomDetailsState) :
  handleSendRequest fault gen w =
  match details_room (ui w) with
  | None => (Data tt, w)
  | Some room =>
    let s := ui w in
    let failed message :=
      (Data tt,
       mkWorld (supabase w) (at_rest s (details_message s))
         (events w ++ [Toasted (error_toast message)])) in
    match auth_user (supabase w) with
    | None => failed "Not authenticated"
    | Some u =>
      match profile_reply fault (db (supabase w)) u with
      | Failed _ => failed "Profile not found"
      | Data pid =>
        match fault InsertRequest with
        | Some e => failed e
        | None =>
          (Data tt,
           mkWorld
             (set_db (insert_request (new_request gen room pid (details_message s))
                        (db (supabase w)))
                (supabase w))
             (at_rest s "")
             (events w ++ [Toasted (success_toast "Request sent successfully!")]))
        end
      end
    end
  end.
Proof.
  unfold handleSendRequest. unfold bind at 1, get_ui at 1.
  destruct (details_room (ui w)) as [room|] eqn:Hroom; [|reflexivity].
  unfold bind at 1, setLoading at 1, modify_ui at 1, finally, try_catch.
  unfold bind at 1, auth_getUser at 1. cbn [supabase ui events].
  destruct (auth_user (supabase w)) as [u|].
  - unfold throw_if_null at 1, ret at 1, bind at 1, bind at 1.
    rewrite profile_id_of_user_run. cbn [supabase ui events db].
    destruct (profile_reply fault (db (supabase w)) u) as [pid|e].
    + run. unfold at_rest. rewrite Hroom.
      destruct (fault InsertRequest); run; reflexivity.
    + run. unfold at_rest. now rewrite Hroom.
  - run. unfold at_rest. now rewrite Hroom.
Qed.

Lemma handleSubmit_run (parseFloat : string -> number) gen (w : World AddRoomFormState) :
  handleSubmit parseFloat fault gen w =
  let s := ui w in
  let idle := mkAddRoomFormState (formData s) (features s) false in
  let failed message :=
    (Data tt, mkWorld (supabase w) idle (events w ++ [Toasted (error_toast message)])) in
  match auth_user (supabase w) with
  | None => failed "Not authenticated"
  | Some u =>
    match profile_reply fault (db (supabase w)) u with
    | Failed _ => failed "Profile not found"
    | Data pid =>
      match fault InsertRoom with
      | Some e => failed e
      | None =>
        (Data tt,
         mkWorld
           (set_db (insert_room (new_room parseFloat gen pid s) (db (supabase w)))
              (supabase w))
           idle
           (events w ++ [Toasted (success_toast "Room added successfully!");
                         Called "onSuccess"]))
      end
    end
  end.
Proof.
  unfold handleSubmit. unfold bind at 1, form_setLoading at 1, modify_ui at 1,
    finally, try_catch.
  unfold bind at 1, auth_getUser at 1. cbn [supabase ui events].
  destruct (auth_user (supabase w)) as [u|].
  - unfold throw_if_null at 1, ret at 1, bind at 1, bind at 1.
    rewrite profile_id_of_user_run. cbn [supabase ui events db].
    destruct (profile_reply fault (db (supabase w)) u) as [pid|e].
    + run. destruct (fault InsertRoom); run; [reflexivity|].
      now rewrite <- app_assoc.
    + run. reflexivity.
  - run. reflexivity.
Qed.

Lemma fetchRooms_run (w : World TenantDashboardState) :
  fetchRooms fault w =
  match fault ActiveRooms with
  | Some _ =>
    (Data tt,
     mkWorld (supabase w) (ui w) (events w ++ [Toasted (error_toast "Failed to fetch rooms")]))
  | None =>
    (Data tt,
     mkWorld (supabase w)
       (mkTenantDashboardState
          (filter (fun r => Bool.eqb (rooms_is_active r) true) (tbl_rooms (db (supabase w)))))
       (events w))
  end.
Proof.
  unfold fetchRooms. run. rewrite map_id.
  destruct (fault ActiveRooms); reflexivity.
Qed.

End Runs.

(** ** The operations of the workflow *)

Section Operations.

Context {number : Type}.

Local Abbreviation RoomRow := (@RoomRow number).
Local Abbreviation Request := (@Request number).
Local Abbreviation Room := (@Room number).
Local Abbreviation Database := (@Database number).
Local Abbreviation Supabase := (@Supabase number).
Local Abbreviation World := (@World number).
Local Abbreviation OwnerDashboardState := (@OwnerDashboardState number).
Local Abbreviation RoomDetailsState := (@RoomDetailsState number).
Local Abbreviation TenantDashboardState := (@TenantDashboardState number).

Implicit Types (fault : Faults) (d : Database) (sb : Supabase) (u : User).
Implicit Types (pid roomId requestId message : string) (q : Request) (r : RequestRow).
Implicit Types (s : OwnerDashboardState) (status : Decision).

Lemma rooms_with_id_unknown d roomId :
  (forall room : RoomRow, In room (tbl_rooms d) -> rooms_id room <> roomId) ->
  rooms_with_id d roomId = [].
Proof.
  intros H. apply filter_nil_iff. intros room Hin.
  apply String.eqb_neq. now apply H.
Qed.

Lemma create_run fault gen roomId message sb :
  create fault gen roomId message sb =
  match single (answer fault RoomById
                  (map (room_with_owner (db sb)) (rooms_with_id (db sb) roomId))) with
  | Data room =>
    snd (handleSendRequest fault gen
           (mkWorld sb (mkRoomDetailsState (Some room) message false) []))
  | Failed _ =>
    mkWorld sb empty_details
      [Toasted (error_toast "Failed to fetch room details"); Navigated "/tenant"]
  end.
Proof.
  unfold create. rewrite fetchRoomDetails_run. cbn.
  destruct (single _); reflexivity.
Qed.

(** The room a page shows is the one row of the table with that id. *)
Lemma room_loaded fault d roomId (room : Room) :
  single (answer fault RoomById (map (room_with_owner d) (rooms_with_id d roomId)))
  = Data room ->
  fault RoomById = None /\
  exists row0, rooms_with_id d roomId = [row0] /\ room = room_with_owner d row0.
Proof.
  unfold answer. destruct (fault RoomById); [discriminate|].
  destruct (rooms_with_id d roomId) as [|row0 [|row1 l]]; cbn; try discriminate.
  intros [= <-]. split; [reflexivity|]. now exists row0.
Qed.

Lemma In_feed d pid q :
  In q (feed d pid) <->
  exists r, In r (tbl_requests d) /\ requests_owner_id r = pid /\
            q = request_with_embeds d r.
Proof.
  unfold feed. rewrite in_map_iff. split.
  - intros (r & <- & Hr). apply filter_In in Hr as [Hin Ho].
    apply String.eqb_eq in Ho. now exists r.
  - intros (r & Hin & Ho & ->). exists r. split; [reflexivity|].
    apply filter_In. split; [assumption|]. now apply String.eqb_eq.
Qed.

(** What the owner's dashboard shows after loading: nothing, or the feed of
    the one profile linked to the signed-in user. *)
Lemma listForOwner_shows fault sb q :
  In q (owner_requests (ui (listForOwner fault sb))) ->
  exists u pid,
    auth_user sb = Some u /\ linked_profiles (db sb) u = [pid] /\
    In q (feed (db sb) pid).
Proof.
  unfold listForOwner. rewrite fetchOwnerData_run. cbn. unfold fetch_failed.
  destruct (auth_user sb) as [u|]; [|contradiction].
  destruct (profile_reply fault (db sb) u) as [pid|e] eqn:Hp; [|contradiction].
  apply profile_reply_data in Hp as [_ Hp].
  destruct (fault RoomsOfOwner); [contradiction|].
  destruct (fault RequestsOfOwner); [contradiction|]. cbn.
  intros Hq. now exists u, pid.
Qed.

(** A dashboard just loaded holds rows of the table. *)
Lemma listForOwner_rows fault sb q :
  In q (owner_requests (ui (listForOwner fault sb))) ->
  In (row q) (tbl_requests (db sb)).
Proof.
  intros Hq. apply listForOwner_shows in Hq as (u & pid & _ & _ & Hq).
  apply In_feed in Hq as (r & Hr & _ & ->). exact Hr.
Qed.

Lemma listForOwner_loaded fault sb u pid :
  auth_user sb = Some u -> linked_profiles (db sb) u = [pid] ->
  fault ProfileOfUser = None -> fault RoomsOfOwner = None ->
  fault RequestsOfOwner = None ->
  listForOwner fault sb =
  mkWorld sb (mkOwnerDashboardState (own_rooms (db sb) pid) (feed (db sb) pid) false) [].
Proof.
  intros Hu Hp Hf1 Hf2 Hf3. unfold listForOwner. rewrite fetchOwnerData_run. cbn.
  rewrite Hu, (profile_reply_one fault (db sb) u pid Hf1 Hp), Hf2, Hf3. reflexivity.
Qed.

Lemma In_offered s requestId status :
  In (requestId, status) (offered s) <->
  exists q, In q (owner_requests s) /\ requests_id (row q) = requestId /\
            requests_status (row q) = "pending".
Proof.
  unfold offered. rewrite in_flat_map. split.
  - intros (q & Hq & Hin). exists q. cbn in Hin.
    destruct (requests_status (row q) =? "pending") eqn:Hs; [|contradiction].
    apply String.eqb_eq in Hs.
    cbn in Hin. destruct Hin as [[= <- _]|[[= <- _]|[]]]; auto.
  - intros (q & Hq & <- & Hs). exists q. split; [assumption|]. cbn.
    rewrite Hs. cbn. destruct status; auto.
Qed.

Lemma decide_run fault requestId status s sb :
  decide fault requestId status s sb =
  match fault UpdateRequest with
  | Some _ => mkWorld sb s [Toasted (error_toast "Failed to update request")]
  | None =>
    snd (fetchOwnerData fault
           (mkWorld (set_db (update_status (decision_status status) requestId (db sb)) sb) s
              [Toasted (success_toast
                          ("Request " ++ decision_status status ++ " successfully")%string)]))
  end.
Proof.
  unfold decide. rewrite handleRequestAction_run. cbn.
  destruct (fault UpdateRequest); reflexivity.
Qed.

(** ** Sending a request *)

(** C8 as amended. When the id of the route resolves to no room, no request
    is inserted and the tables are as they were; loading the page ends with
    the one error toast of [fetchRoomDetails], "Failed to fetch room
    details", and sends the tenant back to the listing, which is what a
    failure of the store on any room gives as well; no room is set, so
    there is no button to send a request, and a call of [handleSendRequest]
    without a room returns at once, without an error. *)
Theorem create_unknown_room fault gen roomId message sb :
  (forall room : RoomRow, In room (tbl_rooms (db sb)) -> rooms_id room <> roomId) ->
  let w := create fault gen roomId message sb in
  supabase w = sb /\
  details_room (ui w) = None /\
  events w = [Toasted (error_toast "Failed to fetch room details"); Navigated "/tenant"] /\
  handleSendRequest fault gen w = (Data tt, w) /\
  (forall fault' gen' roomId' message' e,
     fault' RoomById = Some e ->
     create fault' gen' roomId' message' sb = w).
Proof.
  intros Hno w. subst w. rewrite create_run.
  rewrite (rooms_with_id_unknown _ _ Hno). unfold answer. cbn [map].
  assert (Hs : exists e, single (match fault RoomById with
                                 | Some e => Failed e
                                 | None => Data (@nil Room)
                                 end) = Failed e).
  { destruct (fault RoomById); eexists; reflexivity. }
  destruct Hs as [e ->].
  cbn -[handleSendRequest create]. rewrite handleSendRequest_run. cbn -[create].
  split; [reflexivity|]. split; [reflexivity|]. split; [reflexivity|].
  split; [reflexivity|].
  intros fault' gen' roomId' message' e' Hf. rewrite create_run. unfold answer.
  now rewrite Hf.
Qed.

(** C7. With a room on the page, [handleSendRequest] without a session
    ends with the error toast "Not authenticated", and with a session whose
    user has no profile row it ends with the error toast "Profile not
    found"; either way the tables are as they were. *)
Theorem handleSendRequest_needs_profile fault gen (w : World RoomDetailsState) (room : Room) :
  details_room (ui w) = Some room ->
  let w' := snd (handleSendRequest fault gen w) in
  (auth_user (supabase w) = None ->
   events w' = events w ++ [Toasted (error_toast "Not authenticated")] /\
   supabase w' = supabase w) /\
  (forall u,
     auth_user (supabase w) = Some u ->
     (forall p, In p (tbl_profiles (db (supabase w))) -> profiles_user_id p <> user_id u) ->
     events w' = events w ++ [Toasted (error_toast "Profile not found")] /\
     supabase w' = supabase w).
Proof.
  intros Hroom w'. subst w'. rewrite handleSendRequest_run, Hroom. cbn zeta. split.
  - intros ->. cbn. now split.
  - intros u -> Hnone.
    assert (Hl : linked_profiles (db (supabase w)) u = []).
    { unfold linked_profiles. rewrite filter_nil_iff; [reflexivity|].
      intros p Hp. apply String.eqb_neq. now apply Hnone. }
    pose proof (profile_reply_none fault _ _ Hl) as Hd.
    destruct (profile_reply fault (db (supabase w)) u); [discriminate|].
    cbn. now split.
Qed.

(** C9. A request that [handleSendRequest] inserts carries the text of the
    box, and the default text "I'm interested in this room" when the box is
    empty. *)
Theorem handleSendRequest_message fault gen (w : World RoomDetailsState) (room : Room) u pid :
  details_room (ui w) = Some room ->
  auth_user (supabase w) = Some u ->
  fault ProfileOfUser = None ->
  linked_profiles (db (supabase w)) u = [pid] ->
  fault InsertRequest = None ->
  exists r,
    tbl_requests (db (supabase (snd (handleSendRequest fault gen w))))
    = tbl_requests (db (supabase w)) ++ [r] /\
    (details_message (ui w) = "" -> requests_message r = "I'm interested in this room") /\
    (details_message (ui w) <> "" -> requests_message r = details_message (ui w)).
Proof.
  intros Hroom Hu Hf Hp Hi.
  rewrite handleSendRequest_run, Hroom. cbn zeta.
  rewrite Hu, (profile_reply_one fault _ u pid Hf Hp), Hi. cbn.
  eexists. split; [reflexivity|]. cbn.
  destruct (details_message (ui w)) eqn:Hm; cbn; split; congruence.
Qed.

(** What a successful [create] leaves: shared by the claims on it. *)
Lemma create_succeeded fault gen roomId message sb :
  In (Toasted (success_toast "Request sent successfully!"))
     (events (create fault gen roomId message sb)) ->
  exists (row0 : RoomRow) u pid,
    fault RoomById = None /\ rooms_with_id (db sb) roomId = [row0] /\
    auth_user sb = Some u /\ fault ProfileOfUser = None /\
    linked_profiles (db sb) u = [pid] /\ fault InsertRequest = None /\
    supabase (create fault gen roomId message sb)
    = set_db (insert_request
                (new_request gen (room_with_owner (db sb) row0) pid message) (db sb)) sb.
Proof.
  rewrite create_run.
  destruct (single _) as [room|e] eqn:Hload.
  - apply room_loaded in Hload as (Hf & row0 & Hrow & ->).
    rewrite handleSendRequest_run. cbn.
    destruct (auth_user sb) as [u|] eqn:Hu.
    + destruct (profile_reply fault (db sb) u) as [pid|e] eqn:Hp.
      * apply profile_reply_data in Hp as [Hfp Hp].
        destruct (fault InsertRequest) eqn:Hi.
        -- cbn. intros [[=]|[]].
        -- cbn. intros _. exists row0, u, pid. repeat split; assumption.
      * cbn. intros [[=]|[]].
    + cbn. intros [[=]|[]].
  - cbn. intros [[=]|[[=]|[]]].
Qed.

(** C6. After a [create] that succeeded, the table has one more request:
    its status is pending, and its owner_id is the owner_id of the room its
    room_id refers to. *)
Theorem create_pending_for_room_owner fault gen roomId message sb :
  In (Toasted (success_toast "Request sent successfully!"))
     (events (create fault gen roomId message sb)) ->
  exists r (room : RoomRow),
    tbl_requests (db (supabase (create fault gen roomId message sb)))
    = tbl_requests (db sb) ++ [r] /\
    requests_status r = "pending" /\
    rooms_with_id (db sb) (requests_room_id r) = [room] /\
    requests_owner_id r = rooms_owner_id room.
Proof.
  intros Hok. apply create_succeeded in Hok as (row0 & u & pid & _ & Hrow & _ & _ & _ & _ & ->).
  exists (new_request gen (room_with_owner (db sb) row0) pid message), row0. cbn.
  repeat split.
  apply filter_singleton_In in Hrow as Hid. destruct Hid as [_ Hid].
  apply String.eqb_eq in Hid. now rewrite Hid.
Qed.

Lemma linked_profiles_same_profiles d d' u :
  tbl_profiles d' = tbl_profiles d -> linked_profiles d' u = linked_profiles d u.
Proof. unfold linked_profiles. now intros ->. Qed.

Lemma profile_reply_same_profiles fault d' d u :
  tbl_profiles d' = tbl_profiles d -> profile_reply fault d' u = profile_reply fault d u.
Proof.
  intros H. unfold profile_reply. now rewrite (linked_profiles_same_profiles d d' u H).
Qed.

(** C5. From tables without requests, a [create] with the text "hello"
    that goes through, then the dashboard of the owner of the room: the feed
    has exactly one entry, pending, with the message "hello". *)
Theorem create_then_listForOwner fault fault' gen roomId sb (room : RoomRow) t tid o :
  tbl_requests (db sb) = [] ->
  rooms_with_id (db sb) roomId = [room] ->
  auth_user sb = Some t ->
  linked_profiles (db sb) t = [tid] ->
  linked_profiles (db sb) o = [rooms_owner_id room] ->
  fault RoomById = None -> fault ProfileOfUser = None -> fault InsertRequest = None ->
  fault' ProfileOfUser = None -> fault' RoomsOfOwner = None ->
  fault' RequestsOfOwner = None ->
  exists q,
    owner_requests
      (ui (listForOwner fault'
             (signed_in_as (Some o) (supabase (create fault gen roomId "hello" sb)))))
    = [q] /\
    requests_status (row q) = "pending" /\
    requests_message (row q) = "hello".
Proof.
  intros Hempty Hroom Ht Htid Ho Hf1 Hf2 Hf3 Hg1 Hg2 Hg3.
  rewrite create_run. unfold answer. rewrite Hf1, Hroom. cbn [map single].
  rewrite handleSendRequest_run. cbn.
  rewrite Ht, (profile_reply_one fault _ t tid Hf2 Htid), Hf3. cbn.
  match goal with |- context [listForOwner fault' ?x] =>
    rewrite (listForOwner_loaded fault' x o (rooms_owner_id room) eq_refl Ho Hg1 Hg2 Hg3)
  end.
  cbn. unfold feed. cbn. rewrite Hempty. cbn. rewrite String.eqb_refl. cbn.
  eexists. split; [reflexivity|]. now split.
Qed.

(** ** Adding a room *)

(** C10. After an [addRoom] that succeeded, the table has one more room,
    with is_active = true, and the listing a tenant loads next shows it. *)
Theorem addRoom_active fault (parseFloat : string -> number) gen form sb :
  In (Toasted (success_toast "Room added successfully!"))
     (events (addRoom fault parseFloat gen form sb)) ->
  exists room : RoomRow,
    tbl_rooms (db (supabase (addRoom fault parseFloat gen form sb)))
    = tbl_rooms (db sb) ++ [room] /\
    rooms_is_active room = true /\
    forall fault' v,
      fault' ActiveRooms = None ->
      In room
        (tenant_rooms
           (ui (listRooms fault'
                  (signed_in_as v (supabase (addRoom fault parseFloat gen form sb)))))).
Proof.
  unfold addRoom. rewrite handleSubmit_run. cbn.
  destruct (auth_user sb) as [u|]; [|cbn; intros [[=]|[]]].
  destruct (profile_reply fault (db sb) u) as [pid|e]; [|cbn; intros [[=]|[]]].
  destruct (fault InsertRoom); [cbn; intros [[=]|[]]|].
  cbn. intros _. exists (new_room parseFloat gen pid form).
  split; [reflexivity|]. split; [reflexivity|].
  intros fault' v Hf. unfold listRooms. rewrite fetchRooms_run. cbn. rewrite Hf. cbn.
  apply filter_In. split; [|reflexivity].
  apply in_or_app. right. now left.
Qed.

(** ** The owner's feed *)

(** C2 as amended. Every entry of the feed the dashboard loads carries the
    contact of the tenant's profile, email and phone included, whatever the
    status of the request; the page shows the email and the phone of an
    entry exactly when its status is accepted. *)
Theorem listForOwner_contact fault sb q :
  In q (owner_requests (ui (listForOwner fault sb))) ->
  (forall p,
     find (fun p => profiles_id p =? requests_tenant_id (row q)) (tbl_profiles (db sb))
     = Some p ->
     option_map email (tenant q) = Some (profiles_email p) /\
     option_map phone (tenant q) = Some (profiles_phone p)) /\
  (requests_status (row q) = "accepted" ->
   card_contact (renderRequest q)
   = Some (option_map email (tenant q), option_map phone (tenant q))) /\
  (requests_status (row q) <> "accepted" -> card_contact (renderRequest q) = None).
Proof.
  intros Hq. apply listForOwner_shows in Hq as (u & pid & _ & _ & Hq).
  apply In_feed in Hq as (r & _ & _ & ->). cbn. split; [|split].
  - intros p Hfind. unfold embed_profile. rewrite Hfind. now split.
  - intros ->. reflexivity.
  - intros Hs. apply String.eqb_neq in Hs. now rewrite Hs.
Qed.

(** ** Deciding on a request *)

(** C3 as amended. [handleRequestAction] compares no profile with the
    owner_id and has no outcome of its own for another actor: on any page,
    under any session, its first toast says success when the store answers
    the update without an error, and when the store answers with an error
    nothing changes and the toast is "Failed to update request". The buttons
    bound to it are, on a dashboard as [fetchOwnerData] loaded it, those of
    requests whose owner_id is the id of the profile of the user who was
    signed in when it was loaded. *)
Theorem decide_offered_to_owner fault sb :
  (forall requestId status,
     In (requestId, status) (offered (ui (listForOwner fault sb))) ->
     exists u pid r,
       auth_user sb = Some u /\ linked_profiles (db sb) u = [pid] /\
       In r (tbl_requests (db sb)) /\ requests_id r = requestId /\
       requests_owner_id r = pid) /\
  (forall fault' requestId status s sb',
     let w := decide fault' requestId status s sb' in
     (fault' UpdateRequest = None ->
      exists more,
        events w
        = Toasted (success_toast
                     ("Request " ++ decision_status status ++ " successfully")%string)
          :: more) /\
     (forall e, fault' UpdateRequest = Some e ->
      supabase w = sb' /\ events w = [Toasted (error_toast "Failed to update request")])).
Proof.
  split.
  - intros requestId status Hoff.
    apply In_offered in Hoff as (q & Hq & Hid & _).
    apply listForOwner_shows in Hq as (u & pid & Hu & Hp & Hq).
    apply In_feed in Hq as (r & Hr & Ho & ->).
    now exists u, pid, r.
  - intros fault' requestId status s sb'. cbn zeta. rewrite decide_run. split.
    + intros ->.
      match goal with |- context [fetchOwnerData fault' ?x] =>
        destruct (fetchOwnerData_events fault' x) as [more ->] end.
      now exists more.
    + intros e ->. now split.
Qed.

(** C1 as amended. [handleRequestAction] does not look at the status: when
    the store takes the update, every request with that id gets the chosen
    status and the toast says success; when the store answers with an error,
    nothing changes and the toast says so. The two buttons are on the
    dashboard only for the requests it holds as pending: when the dashboard
    holds rows of the table and ids are unique, pressing a button leaves
    every request as it was or takes it from pending to the chosen status. *)
Theorem decide_from_page fault requestId status s sb :
  let w := decide fault requestId status s sb in
  (fault UpdateRequest = None ->
   tbl_requests (db (supabase w))
   = map (fun r => if requests_id r =? requestId
                   then set_status (decision_status status) r else r)
       (tbl_requests (db sb)) /\
   exists more,
     events w
     = Toasted (success_toast ("Request " ++ decision_status status ++ " successfully")%string)
       :: more) /\
  (forall e, fault UpdateRequest = Some e ->
   supabase w = sb /\ events w = [Toasted (error_toast "Failed to update request")]) /\
  (fault UpdateRequest = None ->
   (forall q, In q (owner_requests s) -> In (row q) (tbl_requests (db sb))) ->
   NoDup (map requests_id (tbl_requests (db sb))) ->
   In (requestId, status) (offered s) ->
   Forall2
     (fun r r' =>
        r' = r \/
        (requests_status r = "pending" /\ r' = set_status (decision_status status) r))
     (tbl_requests (db sb)) (tbl_requests (db (supabase w)))).
Proof.
  intros w. subst w.
  assert (Hdone : fault UpdateRequest = None ->
    tbl_requests (db (supabase (decide fault requestId status s sb)))
    = map (fun r => if requests_id r =? requestId
                    then set_status (decision_status status) r else r)
        (tbl_requests (db sb))).
  { intros Hf. rewrite decide_run, Hf, fetchOwnerData_supabase. reflexivity. }
  split; [|split].
  - intros Hf. split; [now apply Hdone|]. rewrite decide_run, Hf.
    match goal with |- context [fetchOwnerData fault ?x] =>
      destruct (fetchOwnerData_events fault x) as [more ->] end.
    now exists more.
  - intros e He. rewrite decide_run, He. now split.
  - intros Hf Hsync Hnd Hoff. rewrite (Hdone Hf).
    apply Forall2_map_r_self. intros r Hr.
    destruct (requests_id r =? requestId) eqn:Hid; [right|now left].
    apply String.eqb_eq in Hid.
    apply In_offered in Hoff as (q & Hq & Hqid & Hpending).
    assert (r = row q) as ->.
    { apply (NoDup_map_inj requests_id (tbl_requests (db sb))); auto. congruence. }
    now split.
Qed.

(** ** Rooms that are not active *)

Lemma rooms_with_id_with_flags (flag : RoomRow -> bool) sb roomId :
  rooms_with_id (db (with_flags flag sb)) roomId
  = map (fun room => set_is_active (flag room) room) (rooms_with_id (db sb) roomId).
Proof.
  unfold rooms_with_id, with_flags. cbn. now apply filter_map_swap.
Qed.

(** C4 as amended. The listing of the tenant dashboard holds rooms of the
    table with is_active = true only. Loading the page of a room and sending
    a request reads no is_active: with other flags on the rooms, [create]
    leaves the same requests and shows the same toasts. *)
Theorem create_ignores_is_active fault gen roomId message sb :
  (forall fault' (room : RoomRow),
     In room (tenant_rooms (ui (listRooms fault' sb))) ->
     In room (tbl_rooms (db sb)) /\ rooms_is_active room = true) /\
  (forall flag : RoomRow -> bool,
     tbl_requests (db (supabase (create fault gen roomId message (with_flags flag sb))))
     = tbl_requests (db (supabase (create fault gen roomId message sb))) /\
     events (create fault gen roomId message (with_flags flag sb))
     = events (create fault gen roomId message sb)).
Proof.
  split.
  - intros fault' room. unfold listRooms. rewrite fetchRooms_run. cbn.
    destruct (fault' ActiveRooms); cbn; [contradiction|].
    intros Hin. apply filter_In in Hin as [Hin Hact]. split; [assumption|].
    now destruct (rooms_is_active room).
  - intros flag. rewrite !create_run, rooms_with_id_with_flags. unfold answer.
    destruct (fault RoomById); [now split|].
    destruct (rooms_with_id (db sb) roomId) as [|row0 [|row1 rows]]; [now split| |now split].
    cbn [map single]. rewrite !handleSendRequest_run. cbn.
    destruct (auth_user sb) as [u|]; [|now split].
    match goal with |- context [profile_reply fault (set_tbl_rooms ?x ?y) u] =>
      rewrite (profile_reply_same_profiles fault (set_tbl_rooms x y) y u eq_refl)
    end.
    destruct (profile_reply fault (db sb) u) as [pid|e]; [|now split].
    destruct (fault InsertRequest); now split.
Qed.

End Operations.

(** * The properties on the small instance *)

Import Sample.

(** ** Where the handlers do otherwise than the claims say *)

(** Against C1: Omar has the dashboard open twice, both loaded while the
    request was pending, so both show the two buttons. He accepts on one;
    the reject button of the other then turns the accepted request into a
    rejected one, and the toast says success. *)
Lemma decide_on_accepted_counterexample :
  let sb0 := browser "u-omar" (tables true [ask "req-1" "pending"]) in
  let s := ui (listForOwner no_fault sb0) in
  let sb1 := supabase (decide no_fault "req-1" accepted s sb0) in
  let w := decide no_fault "req-1" rejected s sb1 in
  In ("req-1", rejected) (offered s) /\
  map requests_status (tbl_requests (db sb1)) = ["accepted"] /\
  map requests_status (tbl_requests (db (supabase w))) = ["rejected"] /\
  events w = [Toasted (success_toast "Request rejected successfully")].
Proof.
  vm_compute. repeat split. right. now left.
Qed.

(** Against C2: the feed Omar's dashboard loads holds Tina's email and
    phone for a pending and for a rejected request. *)
Lemma feed_with_contact_counterexample :
  let sb := browser "u-omar" (tables true [ask "req-1" "pending"; ask "req-2" "rejected"]) in
  map (fun q => (requests_status (row q), option_map email (tenant q),
                 option_map phone (tenant q)))
    (owner_requests (ui (listForOwner no_fault sb)))
  = [("pending", Some "tina@example.org", Some "555-0101");
     ("rejected", Some "tina@example.org", Some "555-0101")].
Proof. reflexivity. Qed.

(** Against C3: Omar's dashboard is loaded with the request for his room,
    and shows its buttons. Olga, another owner, then signs in in the same
    browser: the guard takes her as the user and keeps showing the page, with
    the buttons it had. She presses accept: [handleRequestAction] runs under
    her session, the toast says success and the request is accepted. *)
Lemma decide_by_another_profile_counterexample :
  let d := tables true [ask "req-1" "pending"] in
  let page := ui (listForOwner no_fault (browser "u-omar" d)) in
  let guard := snd (onAuthStateChange no_fault (Some (mkUser "u-olga")) (Cases.omar_passed d)) in
  let w := decide no_fault "req-1" accepted page (browser "u-olga" d) in
  In ("req-1", accepted) (offered page) /\
  guard_user (ui guard) = Some (mkUser "u-olga") /\
  guard_render (Some owner_role) (ui guard) = Children /\
  linked_profiles d (mkUser "u-olga") = ["p-olga"] /\
  map requests_owner_id (tbl_requests d) = ["p-omar"] /\
  map requests_status (tbl_requests (db (supabase w))) = ["accepted"] /\
  events w = [Toasted (success_toast "Request accepted successfully")].
Proof.
  vm_compute. repeat split. now left.
Qed.

(** Against C8: the id "room-9" resolves to no room and "room-1" to one.
    What [create] leaves for the id without a room is, toast for toast, what
    it leaves for the room that is there when the store fails the query:
    nothing in it says that the id was at fault. And [handleSendRequest] on
    that page returns without an error. *)
Lemma create_unknown_room_counterexample :
  let sb := browser "u-tina" (tables true []) in
  let w := create no_fault stamp "room-9" "hello" sb in
  rooms_with_id (db sb) "room-9" = [] /\
  rooms_with_id (db sb) "room-1" = [flat true] /\
  w = create Cases.room_query_down stamp "room-1" "hello" sb /\
  events w = [Toasted (error_toast "Failed to fetch room details"); Navigated "/tenant"] /\
  handleSendRequest no_fault stamp w = (Data tt, w).
Proof.
  vm_compute. repeat split.
Qed.

(** Against C4: the room is not active, and Tina's request for it is
    inserted, with the toast of success. *)
Lemma create_for_inactive_room_counterexample :
  let sb := browser "u-tina" (tables false []) in
  let w := create no_fault stamp "room-1" "hello" sb in
  map rooms_is_active (rooms_with_id (db sb) "room-1") = [false] /\
  tbl_requests (db (supabase w))
  = [mkRequestRow "req-1" "room-1" "p-tina" "p-omar" "hello" "pending" "2024-01-01"] /\
  events w = [Toasted (success_toast "Request sent successfully!")].
Proof.
  vm_compute. repeat split.
Qed.

(** ** Instances of the theorems *)

Lemma create_unknown_room_witness :
  let sb := browser "u-tina" (tables true []) in
  let w := create no_fault stamp "room-9" "hello" sb in
  supabase w = sb /\
  details_room (ui w) = None /\
  events w = [Toasted (error_toast "Failed to fetch room details"); Navigated "/tenant"] /\
  handleSendRequest no_fault stamp w = (Data tt, w) /\
  create Cases.room_query_down stamp "room-1" "hello" sb = w.
Proof.
  pose (sb := browser "u-tina" (tables true [])).
  destruct (create_unknown_room no_fault stamp "room-9" "hello" sb)
    as (Hsb & Hroom & Hev & Hsend & Hsame).
  - cbn. intros room [<-|[]]. cbn. discriminate.
  - split; [exact Hsb|]. split; [exact Hroom|]. split; [exact Hev|].
    split; [exact Hsend|].
    apply (Hsame Cases.room_query_down stamp "room-1" "hello" "timeout"). reflexivity.
Defined.

Lemma handleSendRequest_needs_profile_witness :
  let signed_out := page_of_flat (mkSupabase None (tables true [])) in
  let stranger := page_of_flat (browser "u-nobody" (tables true [])) in
  (events (snd (handleSendRequest no_fault stamp signed_out))
   = [Toasted (error_toast "Not authenticated")] /\
   supabase (snd (handleSendRequest no_fault stamp signed_out)) = supabase signed_out) /\
  (events (snd (handleSendRequest no_fault stamp stranger))
   = [Toasted (error_toast "Profile not found")] /\
   supabase (snd (handleSendRequest no_fault stamp stranger)) = supabase stranger).
Proof.
  split.
  - apply (handleSendRequest_needs_profile no_fault stamp
             (page_of_flat (mkSupabase None (tables true [])))
             (flat_loaded (tables true [])) eq_refl).
    reflexivity.
  - apply (handleSendRequest_needs_profile no_fault stamp
             (page_of_flat (browser "u-nobody" (tables true [])))
             (flat_loaded (tables true [])) eq_refl)
      with (u := mkUser "u-nobody").
    + reflexivity.
    + cbn. intros p [<-|[<-|[<-|[]]]]; cbn; discriminate.
Defined.

Lemma handleSendRequest_message_witness :
  exists r,
    tbl_requests
      (db (supabase (snd (handleSendRequest no_fault stamp
                            (page_of_flat (browser "u-tina" (tables true []))))))) = [] ++ [r] /\
    ("" = "" -> requests_message r = "I'm interested in this room") /\
    ("" <> "" -> requests_message r = "").
Proof.
  apply (handleSendRequest_message no_fault stamp
           (page_of_flat (browser "u-tina" (tables true [])))
           (flat_loaded (tables true [])) (mkUser "u-tina") "p-tina"); reflexivity.
Defined.

Lemma create_pending_for_room_owner_witness :
  exists r (room : @RoomRow string),
    tbl_requests
      (db (supabase (create no_fault stamp "room-1" "hello" (browser "u-tina" (tables true [])))))
    = [] ++ [r] /\
    requests_status r = "pending" /\
    rooms_with_id (tables true []) (requests_room_id r) = [room] /\
    requests_owner_id r = rooms_owner_id room.
Proof.
  apply (create_pending_for_room_owner no_fault stamp "room-1" "hello"
           (browser "u-tina" (tables true []))).
  vm_compute. left. reflexivity.
Defined.

Lemma create_then_listForOwner_witness :
  exists q,
    owner_requests
      (ui (listForOwner no_fault
             (signed_in_as (Some (mkUser "u-omar"))
                (supabase (create no_fault stamp "room-1" "hello"
                             (browser "u-tina" (tables true [])))))))
    = [q] /\
    requests_status (row q) = "pending" /\
    requests_message (row q) = "hello".
Proof.
  apply (create_then_listForOwner no_fault no_fault stamp "room-1"
           (browser "u-tina" (tables true [])) (flat true)
           (mkUser "u-tina") "p-tina" (mkUser "u-omar")); reflexivity.
Defined.

Lemma addRoom_active_witness :
  exists room : @RoomRow string,
    tbl_rooms
      (db (supabase (addRoom no_fault literal (mkGenerated "room-2" "")
                       new_room_form (browser "u-omar" (tables true [])))))
    = [flat true] ++ [room] /\
    rooms_is_active room = true /\
    forall fault' v,
      fault' ActiveRooms = None ->
      In room
        (tenant_rooms
           (ui (listRooms fault'
                  (signed_in_as v
                     (supabase (addRoom no_fault literal (mkGenerated "room-2" "")
                                  new_room_form (browser "u-omar" (tables true [])))))))).
Proof.
  apply (addRoom_active no_fault literal (mkGenerated "room-2" "") new_room_form
           (browser "u-omar" (tables true []))).
  vm_compute. left. reflexivity.
Defined.

Lemma listForOwner_contact_witness :
  let sb := browser "u-omar" (tables true [ask "req-1" "pending"]) in
  let q := request_with_embeds (db sb) (ask "req-1" "pending") in
  option_map email (tenant q) = Some "tina@example.org" /\
  option_map phone (tenant q) = Some "555-0101" /\
  card_contact (renderRequest q) = None.
Proof.
  pose (sb := browser "u-omar" (tables true [ask "req-1" "pending"])).
  destruct (listForOwner_contact no_fault sb
              (request_with_embeds (db sb) (ask "req-1" "pending")))
    as (Hdata & _ & Hhidden).
  - vm_compute. left. reflexivity.
  - destruct (Hdata tina eq_refl) as [He Hp].
    split; [exact He|]. split; [exact Hp|].
    apply Hhidden. cbn. discriminate.
Defined.

Lemma decide_offered_to_owner_witness :
  let sb := browser "u-omar" (tables true [ask "req-1" "pending"]) in
  let page := ui (listForOwner no_fault sb) in
  (exists u pid r,
     auth_user sb = Some u /\ linked_profiles (db sb) u = [pid] /\
     In r (tbl_requests (db sb)) /\ requests_id r = "req-1" /\ requests_owner_id r = pid) /\
  (exists more,
     events (decide no_fault "req-1" accepted page (signed_in_as (Some (mkUser "u-olga")) sb))
     = Toasted (success_toast "Request accepted successfully") :: more).
Proof.
  pose (sb := browser "u-omar" (tables true [ask "req-1" "pending"])).
  destruct (decide_offered_to_owner no_fault sb) as [Hpage Hany].
  split.
  - apply (Hpage "req-1" accepted). vm_compute. left. reflexivity.
  - apply (proj1 (Hany no_fault "req-1" accepted (ui (listForOwner no_fault sb))
                    (signed_in_as (Some (mkUser "u-olga")) sb))).
    reflexivity.
Defined.

Lemma decide_from_page_witness :
  let sb := browser "u-omar" (tables true [ask "req-1" "pending"; ask "req-2" "rejected"]) in
  let s := ui (listForOwner no_fault sb) in
  Forall2
    (fun r r' =>
       r' = r \/ (requests_status r = "pending" /\ r' = set_status "accepted" r))
    (tbl_requests (db sb))
    (tbl_requests (db (supabase (decide no_fault "req-1" accepted s sb)))).
Proof.
  pose (sb := browser "u-omar" (tables true [ask "req-1" "pending"; ask "req-2" "rejected"])).
  apply (proj2 (proj2 (decide_from_page no_fault "req-1" accepted
                         (ui (listForOwner no_fault sb)) sb))).
  - reflexivity.
  - vm_compute. intros q [<-|[<-|[]]]; cbn; auto.
  - cbn. repeat constructor; cbn; intuition discriminate.
  - vm_compute. left. reflexivity.
Defined.

Lemma create_ignores_is_active_witness :
  let sb := browser "u-tina" (tables true []) in
  (forall room : @RoomRow string,
     In room (tenant_rooms (ui (listRooms no_fault (with_flags (fun _ => false) sb)))) ->
     In room (tbl_rooms (db (with_flags (fun _ => false) sb))) /\
     rooms_is_active room = true) /\
  tbl_requests
    (db (supabase (create no_fault stamp "room-1" "hello" (with_flags (fun _ => false) sb))))
  = tbl_requests (db (supabase (create no_fault stamp "room-1" "hello" sb))).
Proof.
  split.
  - apply (proj1 (create_ignores_is_active no_fault stamp "room-1" "hello"
                    (with_flags (fun _ => false) (browser "u-tina" (tables true []))))
             no_fault).
  - apply (proj2 (create_ignores_is_active no_fault stamp "room-1" "hello"
                    (browser "u-tina" (tables true []))) (fun _ => false)).
Defined.

(** * More of the components *)

Section OwnerPage.

Context {number : Type}.

Local Abbreviation RoomRow := (@RoomRow number).
Local Abbreviation Request := (@Request number).
Local Abbreviation Room := (@Room number).
Local Abbreviation Database := (@Database number).
Local Abbreviation Supabase := (@Supabase number).
Local Abbreviation World := (@World number).
Local Abbreviation OwnerDashboardState := (@OwnerDashboardState number).

Implicit Types (fault : Faults) (d : Database) (sb : Supabase) (u : User).
Implicit Types (pid roomId requestId : string) (q : Request) (r : RequestRow).
Implicit Types (s : OwnerDashboardState) (status : Decision) (room : RoomRow).

Lemma fetchOwnerData_loaded fault (w : World OwnerDashboardState) u pid :
  loads fault (supabase w) u pid ->
  fetchOwnerData fault w =
  (Data tt,
   mkWorld (supabase w)
     (mkOwnerDashboardState (own_rooms (db (supabase w)) pid)
        (feed (db (supabase w)) pid) (showAddRoom (ui w)))
     (events w)).
Proof.
  intros (Hu & Hp & Hf1 & Hf2 & Hf3). rewrite fetchOwnerData_run. cbn zeta.
  now rewrite Hu, (profile_reply_one fault _ u pid Hf1 Hp), Hf2, Hf3.
Qed.

Lemma deleteRoom_run fault roomId s sb :
  deleteRoom fault roomId s sb =
  match fault DeleteRoom with
  | Some _ => mkWorld sb s [Toasted (error_toast "Failed to delete room")]
  | None =>
    snd (fetchOwnerData fault
           (mkWorld (set_db (delete_room roomId (db sb)) sb) s
              [Toasted (success_toast "Room deleted successfully")]))
  end.
Proof.
  unfold deleteRoom, handleDeleteRoom, try_catch, bind at 1, write.
  destruct (fault DeleteRoom) as [e|]; [reflexivity|].
  unfold bind, ret, throw_if_error, get_db, put_db, toast, emit. cbn.
  match goal with |- context [fetchOwnerData fault ?x] => set (w1 := x) end.
  pose proof (fetchOwnerData_returns fault w1) as Hr.
  destruct (fetchOwnerData fault w1) as [r0 w2]. cbn in Hr. now subst r0.
Qed.

(** X1. Deleting a room. When the store takes the delete, the rooms left are
    the rooms that were there under another id, the profiles are as they
    were, and the first toast says success; when the dashboard then reloads,
    it lists no room of that id. When the store answers with an error,
    nothing changes, the page is not reloaded and the toast says so. *)
Theorem deleteRoom_effect fault roomId s sb :
  let w := deleteRoom fault roomId s sb in
  (fault DeleteRoom = None ->
   (forall room,
      In room (tbl_rooms (db (supabase w))) <->
      In room (tbl_rooms (db sb)) /\ rooms_id room <> roomId) /\
   tbl_profiles (db (supabase w)) = tbl_profiles (db sb) /\
   (exists more,
      events w = Toasted (success_toast "Room deleted successfully") :: more) /\
   (forall u pid,
      loads fault sb u pid ->
      forall room, In room (owner_rooms (ui w)) -> rooms_id room <> roomId)) /\
  (forall e, fault DeleteRoom = Some e ->
   w = mkWorld sb s [Toasted (error_toast "Failed to delete room")]).
Proof.
  intros w. subst w. rewrite deleteRoom_run. split.
  - intros ->. rewrite fetchOwnerData_supabase.
    split; [|split; [|split]].
    + intros room. cbn. rewrite filter_In, negb_true_iff, String.eqb_neq. reflexivity.
    + reflexivity.
    + match goal with |- context [fetchOwnerData fault ?x] =>
        destruct (fetchOwnerData_events fault x) as [more ->] end.
      now exists more.
    + intros u pid Hload room.
      rewrite (fetchOwnerData_loaded fault _ u pid) by exact Hload. cbn.
      unfold own_rooms. cbn. rewrite !filter_In, negb_true_iff, String.eqb_neq.
      tauto.
  - intros e ->. reflexivity.
Qed.

(** X2. An id that nothing has. With no room of the id, the delete button's
    handler leaves the table as it is and still says the room was deleted;
    with no request of the id, [handleRequestAction] leaves the table as it
    is and still says the request was accepted or rejected. *)
Theorem unknown_id_is_success fault s sb :
  (forall roomId,
     fault DeleteRoom = None ->
     (forall room, In room (tbl_rooms (db sb)) -> rooms_id room <> roomId) ->
     db (supabase (deleteRoom fault roomId s sb)) = db sb /\
     In (Toasted (success_toast "Room deleted successfully"))
        (events (deleteRoom fault roomId s sb))) /\
  (forall requestId status,
     fault UpdateRequest = None ->
     (forall r, In r (tbl_requests (db sb)) -> requests_id r <> requestId) ->
     db (supabase (decide fault requestId status s sb)) = db sb /\
     In (Toasted (success_toast ("Request " ++ decision_status status ++ " successfully")%string))
        (events (decide fault requestId status s sb))).
Proof.
  split.
  - intros roomId Hf Hno. rewrite deleteRoom_run, Hf, fetchOwnerData_supabase. split.
    + cbn. unfold delete_room, set_tbl_rooms.
      assert (Hsame : filter (fun room : RoomRow => negb (rooms_id room =? roomId))
                        (tbl_rooms (db sb)) = tbl_rooms (db sb)).
      { induction (tbl_rooms (db sb)) as [|x l IH]; [reflexivity|]. cbn.
        assert (Hx : (rooms_id x =? roomId) = false).
        { apply String.eqb_neq. apply Hno. now left. }
        rewrite Hx. cbn. f_equal. apply IH. intros room Hin. apply Hno. now right. }
      rewrite Hsame. now destruct (db sb).
    + match goal with |- context [fetchOwnerData fault ?x] =>
        destruct (fetchOwnerData_events fault x) as [more ->] end.
      now left.
  - intros requestId status Hf Hno. rewrite decide_run, Hf, fetchOwnerData_supabase. split.
    + cbn. unfold update_status, set_tbl_requests.
      assert (Hsame : map (fun r => if requests_id r =? requestId
                                    then set_status (decision_status status) r else r)
                        (tbl_requests (db sb)) = tbl_requests (db sb)).
      { induction (tbl_requests (db sb)) as [|x l IH]; [reflexivity|]. cbn.
        assert (Hx : (requests_id x =? requestId) = false).
        { apply String.eqb_neq. apply Hno. now left. }
        rewrite Hx. f_equal. apply IH. intros r Hin. apply Hno. now right. }
      rewrite Hsame. now destruct (db sb).
    + match goal with |- context [fetchOwnerData fault ?x] =>
        destruct (fetchOwnerData_events fault x) as [more ->] end.
      now left.
Qed.

Lemma decide_tables fault requestId status s sb :
  db (supabase (decide fault requestId status s sb)) =
  match fault UpdateRequest with
  | Some _ => db sb
  | None => update_status (decision_status status) requestId (db sb)
  end.
Proof.
  rewrite decide_run. destruct (fault UpdateRequest); [reflexivity|].
  now rewrite fetchOwnerData_supabase.
Qed.

(** X3. [handleRequestAction] writes the status and nothing else: whatever
    the store answers, the requests after it are the requests before it, in
    the same order, each with the same id, room, tenant, owner, message and
    date; the profiles and the rooms are as they were. *)
Theorem decide_writes_status_only fault requestId status s sb :
  let d' := db (supabase (decide fault requestId status s sb)) in
  map without_status (tbl_requests d') = map without_status (tbl_requests (db sb)) /\
  tbl_profiles d' = tbl_profiles (db sb) /\
  tbl_rooms d' = tbl_rooms (db sb).
Proof.
  cbn zeta. rewrite decide_tables.
  destruct (fault UpdateRequest); [now repeat split|].
  cbn. split; [|now split].
  rewrite map_map. apply map_ext. intros r.
  now destruct (requests_id r =? requestId).
Qed.

(** X4. The last decision wins: when the store takes both updates, deciding
    on a request and then deciding on it again leaves the tables that the
    second decision alone leaves. In particular a decision taken twice is
    the decision taken once. *)
Theorem decide_last_wins fault fault' requestId status status' s s' sb :
  fault UpdateRequest = None ->
  fault' UpdateRequest = None ->
  db (supabase (decide fault' requestId status' s'
                  (supabase (decide fault requestId status s sb))))
  = db (supabase (decide fault' requestId status' s' sb)).
Proof.
  intros Hf Hf'. rewrite !decide_tables, Hf', Hf.
  unfold update_status, set_tbl_requests. cbn. f_equal.
  rewrite map_map. apply map_ext. intros r.
  destruct (requests_id r =? requestId) eqn:Hid; cbn; now rewrite Hid.
Qed.

(** X5. After a decision that the store took, on a dashboard that reloads,
    every entry of the feed with that id has the chosen status, and the
    dashboard has no button left for it. *)
Theorem decide_reloads_page fault requestId status s sb u pid :
  fault UpdateRequest = None ->
  loads fault sb u pid ->
  let w := decide fault requestId status s sb in
  (forall q, In q (owner_requests (ui w)) -> requests_id (row q) = requestId ->
             requests_status (row q) = decision_status status) /\
  (forall status', ~ In (requestId, status') (offered (ui w))).
Proof.
  intros Hf Hload w. subst w. rewrite decide_run, Hf.
  rewrite (fetchOwnerData_loaded fault _ u pid) by exact Hload.
  cbn -[offered feed update_status own_rooms].
  assert (Hq : forall q,
    In q (feed (update_status (decision_status status) requestId (db sb)) pid) ->
    requests_id (row q) = requestId ->
    requests_status (row q) = decision_status status).
  { intros q Hin Hid. apply In_feed in Hin as (r & Hr & _ & ->). cbn in *.
    apply in_map_iff in Hr as (r0 & <- & _).
    destruct (requests_id r0 =? requestId) eqn:H0; [reflexivity|].
    apply String.eqb_neq in H0. contradiction. }
  split; [exact Hq|].
  intros status' Hoff. apply In_offered in Hoff as (q & Hin & Hid & Hpending).
  cbn in Hin. rewrite (Hq q Hin Hid) in Hpending. now destruct status.
Qed.

(** X6. A load that fails half way. When the rooms arrive and the query of
    the requests fails, the dashboard shows the new rooms beside the
    requests it had, with the toast "Failed to fetch data". *)
Theorem fetchOwnerData_half_way fault (w : World OwnerDashboardState) u pid e :
  acts_as fault (supabase w) u pid ->
  fault RoomsOfOwner = None ->
  fault RequestsOfOwner = Some e ->
  let w' := snd (fetchOwnerData fault w) in
  owner_rooms (ui w') = own_rooms (db (supabase w)) pid /\
  owner_requests (ui w') = owner_requests (ui w) /\
  events w' = events w ++ [Toasted (error_toast "Failed to fetch data")].
Proof.
  intros (Hu & Hp & Hf1) Hf2 Hf3. cbn zeta. rewrite fetchOwnerData_run. cbn zeta.
  rewrite Hu, (profile_reply_one fault _ u pid Hf1 Hp), Hf2, Hf3. now repeat split.
Qed.

(** X7. What a dashboard shows after [fetchOwnerData], from an empty page:
    only rooms and requests whose owner_id is the id of the one profile of
    the signed-in user; and when the load goes through, all of them, in the
    order of the tables. *)
Theorem listForOwner_own fault sb :
  (forall room, In room (owner_rooms (ui (listForOwner fault sb))) ->
     exists u pid, auth_user sb = Some u /\ linked_profiles (db sb) u = [pid] /\
                   In room (tbl_rooms (db sb)) /\ rooms_owner_id room = pid) /\
  (forall q, In q (owner_requests (ui (listForOwner fault sb))) ->
     exists u pid, auth_user sb = Some u /\ linked_profiles (db sb) u = [pid] /\
                   In (row q) (tbl_requests (db sb)) /\ requests_owner_id (row q) = pid) /\
  (forall u pid, loads fault sb u pid ->
     owner_rooms (ui (listForOwner fault sb))
     = filter (fun room => rooms_owner_id room =? pid) (tbl_rooms (db sb)) /\
     map row (owner_requests (ui (listForOwner fault sb)))
     = filter (fun r => requests_owner_id r =? pid) (tbl_requests (db sb))).
Proof.
  split; [|split].
  - intros room. unfold listForOwner. rewrite fetchOwnerData_run. cbn.
    unfold fetch_failed.
    destruct (auth_user sb) as [u|]; [|contradiction].
    destruct (profile_reply fault (db sb) u) as [pid|e] eqn:Hp; [|contradiction].
    apply profile_reply_data in Hp as [_ Hp].
    destruct (fault RoomsOfOwner); [contradiction|].
    assert (Hown : In room (own_rooms (db sb) pid) ->
                   In room (tbl_rooms (db sb)) /\ rooms_owner_id room = pid).
    { unfold own_rooms. rewrite filter_In, String.eqb_eq. tauto. }
    destruct (fault RequestsOfOwner); cbn; intros Hin; exists u, pid;
      destruct (Hown Hin); auto.
  - intros q Hq. apply listForOwner_shows in Hq as (u & pid & Hu & Hp & Hq).
    apply In_feed in Hq as (r & Hr & Ho & ->). now exists u, pid.
  - intros u pid Hload. unfold listForOwner.
    rewrite (fetchOwnerData_loaded fault _ u pid) by exact Hload. cbn.
    split; [reflexivity|]. unfold feed. rewrite map_map. cbn. apply map_id.
Qed.

End OwnerPage.

Section RoomPage.

Context {number : Type}.

Local Abbreviation RoomRow := (@RoomRow number).
Local Abbreviation Request := (@Request number).
Local Abbreviation Room := (@Room number).
Local Abbreviation Database := (@Database number).
Local Abbreviation Supabase := (@Supabase number).
Local Abbreviation World := (@World number).
Local Abbreviation RoomDetailsState := (@RoomDetailsState number).

Implicit Types (fault : Faults) (d : Database) (sb : Supabase) (u : User).
Implicit Types (pid roomId requestId message : string) (q : Request) (r : RequestRow).
Implicit Types (w : World RoomDetailsState) (room : Room).

Lemma handleSendRequest_sent fault gen w room u pid :
  details_room (ui w) = Some room ->
  acts_as fault (supabase w) u pid ->
  fault InsertRequest = None ->
  snd (handleSendRequest fault gen w) =
  mkWorld
    (set_db (insert_request (new_request gen room pid (details_message (ui w)))
               (db (supabase w))) (supabase w))
    (mkRoomDetailsState (Some room) "" false)
    (events w ++ [Toasted (success_toast "Request sent successfully!")]).
Proof.
  intros Hroom (Hu & Hp & Hf) Hi. rewrite handleSendRequest_run, Hroom. cbn zeta.
  rewrite Hu, (profile_reply_one fault _ u pid Hf Hp), Hi. cbn.
  unfold at_rest. now rewrite Hroom.
Qed.

(** X8. Nothing stops a second request. After a request went through, the
    page has the same room and an empty box, so pressing the button again
    inserts a second pending request of the same tenant for the same room,
    with the default text. *)
Theorem send_twice fault gen gen' w room u pid :
  details_room (ui w) = Some room ->
  acts_as fault (supabase w) u pid ->
  fault InsertRequest = None ->
  let w' := snd (handleSendRequest fault gen' (snd (handleSendRequest fault gen w))) in
  exists r r',
    tbl_requests (db (supabase w')) = tbl_requests (db (supabase w)) ++ [r; r'] /\
    requests_id r = gen_id gen /\ requests_id r' = gen_id gen' /\
    requests_status r = "pending" /\ requests_status r' = "pending" /\
    requests_tenant_id r = pid /\ requests_tenant_id r' = pid /\
    requests_room_id r' = requests_room_id r /\
    requests_message r' = "I'm interested in this room".
Proof.
  intros Hroom Hact Hi. cbn zeta.
  rewrite (handleSendRequest_sent fault gen w room u pid Hroom Hact Hi).
  match goal with |- context [handleSendRequest fault gen' ?x] =>
    rewrite (handleSendRequest_sent fault gen' x room u pid eq_refl)
  end; [| |exact Hi].
  - cbn. rewrite <- app_assoc. cbn.
    do 2 eexists. split; [reflexivity|]. cbn. now repeat split.
  - destruct Hact as (Hu & Hp & Hf). now repeat split.
Qed.

(** X9. How [handleSendRequest] ends, with a room on the page. The page
    keeps its room and is no longer loading; profiles, rooms and the session
    are as they were; and either one request was appended, the box is empty
    and the toast says success, or the tables are as they were, the box
    keeps its text and the toast is an error. When the store refuses the
    insert, the toast shows the message of the store. *)
Theorem handleSendRequest_ends fault gen w room :
  details_room (ui w) = Some room ->
  let w' := snd (handleSendRequest fault gen w) in
  details_room (ui w') = Some room /\
  details_loading (ui w') = false /\
  auth_user (supabase w') = auth_user (supabase w) /\
  tbl_profiles (db (supabase w')) = tbl_profiles (db (supabase w)) /\
  tbl_rooms (db (supabase w')) = tbl_rooms (db (supabase w)) /\
  ((exists r,
      tbl_requests (db (supabase w')) = tbl_requests (db (supabase w)) ++ [r] /\
      details_message (ui w') = "" /\
      events w' = events w ++ [Toasted (success_toast "Request sent successfully!")])
   \/
   (exists message,
      supabase w' = supabase w /\
      details_message (ui w') = details_message (ui w) /\
      events w' = events w ++ [Toasted (error_toast message)])) /\
  (forall u pid e,
     acts_as fault (supabase w) u pid -> fault InsertRequest = Some e ->
     events w' = events w ++ [Toasted (error_toast e)]).
Proof.
  intros Hroom. cbn zeta. rewrite handleSendRequest_run, Hroom. cbn zeta.
  unfold at_rest. rewrite Hroom.
  destruct (auth_user (supabase w)) as [u|] eqn:Hu.
  - destruct (profile_reply fault (db (supabase w)) u) as [pid|e] eqn:Hp.
    + destruct (fault InsertRequest) as [e|] eqn:Hi; cbn;
        (do 5 (split; [first [reflexivity | assumption]|])); split.
      * right. now exists e.
      * intros u' pid' e' _ [= ->]. reflexivity.
      * left. eexists. now repeat split.
      * intros u' pid' e' _ [=].
    + cbn. (do 5 (split; [first [reflexivity | assumption]|])); split.
      * right. now eexists.
      * intros u' pid' e' (Hu' & Hp' & Hf') _. rewrite Hu in Hu'. injection Hu' as <-.
        rewrite (profile_reply_one fault _ u pid' Hf' Hp') in Hp. discriminate.
  - cbn. (do 5 (split; [first [reflexivity | assumption]|])); split.
    + right. now eexists.
    + intros u' pid' e' (Hu' & _) _. rewrite Hu in Hu'. discriminate.
Qed.

(** X10. From the request to the contact. A tenant sends a request for a
    room, into an empty table; the owner of the room opens the dashboard,
    finds the accept button for it and presses it: the dashboard then shows
    one card, without buttons, with the email and the phone of the tenant's
    profile. *)
Theorem accepted_shows_contact fault fault' gen roomId message sb
    (row0 : RoomRow) t tid (p : Profile) o :
  tbl_requests (db sb) = [] ->
  rooms_with_id (db sb) roomId = [row0] ->
  acts_as fault sb t tid ->
  fault RoomById = None -> fault InsertRequest = None ->
  find (fun p => profiles_id p =? tid) (tbl_profiles (db sb)) = Some p ->
  linked_profiles (db sb) o = [rooms_owner_id row0] ->
  fault' ProfileOfUser = None -> fault' RoomsOfOwner = None ->
  fault' RequestsOfOwner = None -> fault' UpdateRequest = None ->
  let sb1 := signed_in_as (Some o) (supabase (create fault gen roomId message sb)) in
  let page := ui (listForOwner fault' sb1) in
  let w := decide fault' (gen_id gen) accepted page sb1 in
  In (gen_id gen, accepted) (offered page) /\
  exists card,
    map renderRequest (owner_requests (ui w)) = [card] /\
    card_contact card = Some (Some (profiles_email p), Some (profiles_phone p)) /\
    card_buttons card = [].
Proof.
  intros Hempty Hroom (Ht & Htid & Hfp) Hf1 Hf3 Hfind Ho Hg1 Hg2 Hg3 Hg4.
  cbn zeta. rewrite create_run. unfold answer. rewrite Hf1, Hroom. cbn [map single].
  rewrite handleSendRequest_run. cbn.
  rewrite Ht, (profile_reply_one fault _ t tid Hfp Htid), Hf3. cbn.
  match goal with |- context [listForOwner fault' ?x] =>
    rewrite (listForOwner_loaded fault' x o (rooms_owner_id row0) eq_refl Ho Hg1 Hg2 Hg3)
  end.
  rewrite decide_run, Hg4.
  match goal with |- context [fetchOwnerData fault' ?x] =>
    rewrite (fetchOwnerData_loaded fault' x o (rooms_owner_id row0))
      by (repeat split; assumption)
  end.
  cbn. unfold feed. cbn. rewrite Hempty. cbn.
  rewrite !String.eqb_refl. cbn.
  split; [now left|].
  eexists. split; [reflexivity|]. cbn.
  unfold embed_profile. cbn. rewrite Hfind. now split.
Qed.

End RoomPage.

(** ** Objects by their entries *)

Lemma find_key_skip {V} (key key' : string) (v : V) (l : list (string * V)) :
  has_key key l = false ->
  (key =? key') = true ->
  find (fun e => fst e =? key') l = None.
Proof.
  intros Hno Hk. apply String.eqb_eq in Hk. subst key'.
  induction l as [|e l IH]; [reflexivity|]. cbn in *.
  apply orb_false_iff in Hno as [He Hl]. rewrite He. now apply IH.
Qed.

Lemma get_key_insert_index {V} (n : N) (key key' : string) (v : V) (l : list (string * V)) :
  has_key key l = false ->
  get_key key' (insert_index n key v l)
  = if key =? key' then Some v else get_key key' l.
Proof.
  unfold get_key. induction l as [|e l IH]; intros Hno.
  - cbn. now destruct (key =? key').
  - cbn in Hno. apply orb_false_iff in Hno as [He Hl]. cbn.
    assert (Hhere : option_map snd (find (fun e0 => fst e0 =? key') ((key, v) :: e :: l))
                    = if key =? key' then Some v
                      else option_map snd (find (fun e0 => fst e0 =? key') (e :: l))).
    { cbn. now destruct (key =? key'). }
    destruct (array_index (fst e)) as [m|]; [|exact Hhere].
    destruct (m <? n)%N; [|exact Hhere].
    cbn. destruct (fst e =? key') eqn:Hek.
    + apply String.eqb_eq in Hek. subst key'.
      rewrite String.eqb_sym, He. reflexivity.
    + now apply IH.
Qed.

Lemma find_append {A} (f : A -> bool) (l l' : list A) :
  find f (l ++ l') = match find f l with Some a => Some a | None => find f l' end.
Proof.
  induction l as [|a l IH]; [reflexivity|]. cbn. now destruct (f a).
Qed.

Lemma get_key_overwrite {V} (key key' : string) (v : V) (l : list (string * V)) :
  get_key key' (map (fun e => if fst e =? key then (fst e, v) else e) l)
  = if key =? key' then (if has_key key l then Some v else None) else get_key key' l.
Proof.
  unfold get_key, has_key. induction l as [|e l IH].
  - cbn. now destruct (key =? key').
  - cbn. destruct (fst e =? key) eqn:Hek; cbn.
    + apply String.eqb_eq in Hek. rewrite Hek.
      destruct (key =? key') eqn:Hk; [reflexivity|]. exact IH.
    + destruct (fst e =? key') eqn:Hek'.
      * apply String.eqb_eq in Hek'. subst key'.
        rewrite String.eqb_sym, Hek. reflexivity.
      * exact IH.
Qed.

Lemma spread_with_get {V} (key key' : string) (v : V) (l : list (string * V)) :
  get_key key' (spread_with key v l)
  = if key =? key' then Some v else get_key key' l.
Proof.
  unfold spread_with. destruct (has_key key l) eqn:Hhas.
  - rewrite get_key_overwrite, Hhas. reflexivity.
  - destruct (array_index key) as [n|].
    + now apply get_key_insert_index.
    + unfold get_key.
      destruct (key =? key') eqn:Hk.
      * rewrite find_append. rewrite (find_key_skip key key' v l Hhas Hk). cbn.
        now rewrite Hk.
      * rewrite find_append. destruct (find (fun e => fst e =? key') l); [reflexivity|].
        cbn. now rewrite Hk.
Qed.

Lemma spread_with_keys {V} (key : string) (v : V) (l : list (string * V)) :
  has_key key l = true -> map fst (spread_with key v l) = map fst l.
Proof.
  intros Hhas. unfold spread_with. rewrite Hhas. rewrite map_map.
  apply map_ext. intros e. now destruct (fst e =? key).
Qed.

Lemma has_key_In {V} (key : string) (l : list (string * V)) :
  In key (map fst l) -> has_key key l = true.
Proof.
  intros Hin. apply in_map_iff in Hin as (e & <- & He).
  apply existsb_exists. exists e. split; [assumption|]. apply String.eqb_refl.
Qed.

Section FormPage.

Context {number : Type}.

Local Abbreviation RoomRow := (@RoomRow number).
Local Abbreviation Room := (@Room number).
Local Abbreviation Database := (@Database number).
Local Abbreviation Supabase := (@Supabase number).
Local Abbreviation World := (@World number).
Local Abbreviation OwnerDashboardState := (@OwnerDashboardState number).

Implicit Types (fault : Faults) (d : Database) (sb : Supabase) (u : User).
Implicit Types (pid roomId : string) (w : World AddRoomFormState) (l : list Input).
Implicit Types (form : AddRoomFormState) (parseFloat : string -> number).

(** X11. [handleFeatureChange] sets the flag it names and no other: after
    it the features have the given value at the given key and, at every
    other key, what they had, whether the key was there before or not; the
    fields, the tables and the log are as they were. *)
Theorem handleFeatureChange_sets (feature feature' : string) (checked : bool) w :
  let w' := snd (handleFeatureChange feature checked w) in
  get_key feature' (features (ui w'))
  = (if feature =? feature' then Some checked else get_key feature' (features (ui w))) /\
  formData (ui w') = formData (ui w) /\
  supabase w' = supabase w /\ events w' = events w.
Proof.
  cbn. split; [apply spread_with_get|]. now repeat split.
Qed.

Lemma inputs_run l w :
  inputs l w = (Data tt, mkWorld (supabase w) (filled l (ui w)) (events w)).
Proof.
  revert w. induction l as [|i l IH]; intros w.
  - now destruct w.
  - cbn [inputs]. unfold bind. destruct i as [field value|feature checked]; cbn;
      rewrite IH; reflexivity.
Qed.

Lemma filled_loading l form : loading (filled l form) = loading form.
Proof.
  revert form. induction l as [|[field value|feature checked] l IH]; intros form;
    cbn; [reflexivity| |]; now rewrite IH.
Qed.

Lemma filled_keys l form :
  checks_known l ->
  (forall f, In f feature_names -> In f (map fst (features form))) ->
  map fst (features (filled l form)) = map fst (features form).
Proof.
  revert form. induction l as [|[field value|feature checked] l IH]; intros form Hk Hin.
  - reflexivity.
  - cbn. rewrite IH; [reflexivity| |exact Hin].
    intros f v H. apply (Hk f v). now right.
  - cbn.
    assert (Hhas : has_key feature (features form) = true).
    { apply has_key_In, Hin. apply (Hk feature checked). now left. }
    rewrite IH; cbn.
    + now apply spread_with_keys.
    + intros f v H. apply (Hk f v). now right.
    + rewrite spread_with_keys by exact Hhas. exact Hin.
Qed.

(** X12. The checkboxes of the form. The form starts with the six features
    in a fixed order, and checking or unchecking any of them, in any order
    and any number of times, between any typing, leaves the same six
    features in the same order. *)
Theorem form_keeps_checkboxes l sb :
  checks_known l ->
  map fst (features (ui (snd (inputs l (mkWorld sb empty_form [])))))
  = ["wifi"; "electricity"; "water"; "parking"; "furnished"; "security"].
Proof.
  intros Hk. rewrite inputs_run. cbn [snd ui].
  rewrite filled_keys; [reflexivity|exact Hk|].
  intros f Hf. exact Hf.
Qed.

Lemma filled_field l form :
  formData (filled l form)
  = mkFormData
      (last_typed "address_line" l (form_address_line (formData form)))
      (last_typed "city" l (form_city (formData form)))
      (last_typed "district" l (form_district (formData form)))
      (last_typed "taluka" l (form_taluka (formData form)))
      (last_typed "state" l (form_state (formData form)))
      (last_typed "pincode" l (form_pincode (formData form)))
      (last_typed "landmark" l (form_landmark (formData form)))
      (last_typed "rent" l (form_rent (formData form)))
      (last_typed "room_type" l (form_room_type (formData form))).
Proof.
  revert form. induction l as [|[field value|feature checked] l IH]; intros form.
  - cbn. now destruct (formData form).
  - cbn. rewrite IH. cbn. reflexivity.
  - cbn. rewrite IH. reflexivity.
Qed.

Lemma filled_flag l form feature :
  get_key feature (features (filled l form))
  = last_checked feature l (get_key feature (features form)).
Proof.
  revert form. induction l as [|[field value|f checked] l IH]; intros form.
  - reflexivity.
  - cbn. now rewrite IH.
  - cbn. rewrite IH. cbn. now rewrite spread_with_get.
Qed.

Lemma handleSubmit_done parseFloat fault gen w u pid :
  acts_as fault (supabase w) u pid ->
  fault InsertRoom = None ->
  snd (handleSubmit parseFloat fault gen w) =
  mkWorld
    (set_db (insert_room (new_room parseFloat gen pid (ui w)) (db (supabase w)))
       (supabase w))
    (mkAddRoomFormState (formData (ui w)) (features (ui w)) false)
    (events w ++ [Toasted (success_toast "Room added successfully!"); Called "onSuccess"]).
Proof.
  intros (Hu & Hp & Hf) Hi. rewrite handleSubmit_run. cbn zeta.
  now rewrite Hu, (profile_reply_one fault _ u pid Hf Hp), Hi.
Qed.

(** X13. From the form to the table. When an owner fills the form in and
    [handleSubmit] goes through, the room appended has, in each column, the
    text typed last into the field of that name (the empty text for a field
    never typed into: the check of required fields is the browser's, not
    the handler's), the rent read by [parseFloat] from the text of the rent
    field, the flags as they were checked last (false for a feature never
    touched), the id of the owner's profile, and is_active = true. *)
Theorem fillAndSubmit_row fault parseFloat gen l sb u pid :
  acts_as fault sb u pid ->
  fault InsertRoom = None ->
  exists room : RoomRow,
    tbl_rooms (db (supabase (fillAndSubmit fault parseFloat gen l sb)))
    = tbl_rooms (db sb) ++ [room] /\
    rooms_id room = gen_id gen /\
    rooms_owner_id room = pid /\
    rooms_is_active room = true /\
    rooms_address_line room = last_typed "address_line" l "" /\
    rooms_city room = last_typed "city" l "" /\
    rooms_district room = last_typed "district" l "" /\
    rooms_taluka room = last_typed "taluka" l "" /\
    rooms_state room = last_typed "state" l "" /\
    rooms_pincode room = last_typed "pincode" l "" /\
    rooms_landmark room = last_typed "landmark" l "" /\
    rooms_rent room = parseFloat (last_typed "rent" l "") /\
    rooms_room_type room = last_typed "room_type" l "" /\
    (forall feature, In feature feature_names ->
       get_key feature (rooms_features room) = last_checked feature l (Some false)).
Proof.
  intros Hact Hi. unfold fillAndSubmit, bind. rewrite inputs_run.
  match goal with |- context [handleSubmit parseFloat fault gen ?x] =>
    rewrite (handleSubmit_done parseFloat fault gen x u pid Hact Hi)
  end. cbn.
  eexists. split; [reflexivity|]. cbn. rewrite filled_field. cbn.
  repeat (split; [reflexivity|]).
  intros feature Hin. rewrite filled_flag. f_equal.
  cbn in Hin. destruct Hin as [<-|[<-|[<-|[<-|[<-|[<-|[]]]]]]]; reflexivity.
Qed.

(** X14. How [handleSubmit] ends. The form keeps its fields and flags and
    is no longer loading; profiles, requests and the session are as they
    were; and either one room was appended, with is_active = true, the toast
    says success and [onSuccess] is called, or the tables are as they were,
    the toast is an error and [onSuccess] is not called. *)
Theorem handleSubmit_ends parseFloat fault gen w :
  let w' := snd (handleSubmit parseFloat fault gen w) in
  formData (ui w') = formData (ui w) /\
  features (ui w') = features (ui w) /\
  loading (ui w') = false /\
  auth_user (supabase w') = auth_user (supabase w) /\
  tbl_profiles (db (supabase w')) = tbl_profiles (db (supabase w)) /\
  tbl_requests (db (supabase w')) = tbl_requests (db (supabase w)) /\
  ((exists room : RoomRow,
      tbl_rooms (db (supabase w')) = tbl_rooms (db (supabase w)) ++ [room] /\
      rooms_is_active room = true /\
      events w' = events w ++ [Toasted (success_toast "Room added successfully!");
                               Called "onSuccess"])
   \/
   (exists message,
      supabase w' = supabase w /\
      events w' = events w ++ [Toasted (error_toast message)])).
Proof.
  cbn zeta. rewrite handleSubmit_run. cbn zeta.
  destruct (auth_user (supabase w)) as [u|] eqn:Hu.
  - destruct (profile_reply fault (db (supabase w)) u) as [pid|e].
    + destruct (fault InsertRoom) as [e|]; cbn;
        (do 6 (split; [first [reflexivity | assumption]|])).
      * right. now exists e.
      * left. eexists. now repeat split.
    + cbn. (do 6 (split; [first [reflexivity | assumption]|])). right. now eexists.
  - cbn. (do 6 (split; [first [reflexivity | assumption]|])). right. now eexists.
Qed.

End FormPage.

Section RoundTrips.

Context {number : Type}.

Local Abbreviation RoomRow := (@RoomRow number).
Local Abbreviation Room := (@Room number).
Local Abbreviation Database := (@Database number).
Local Abbreviation Supabase := (@Supabase number).
Local Abbreviation World := (@World number).
Local Abbreviation OwnerDashboardState := (@OwnerDashboardState number).

Implicit Types (fault : Faults) (d : Database) (sb : Supabase) (u : User).
Implicit Types (pid roomId : string) (form : AddRoomFormState).
Implicit Types (parseFloat : string -> number) (s : OwnerDashboardState).

Lemma openRoom_run fault roomId sb :
  openRoom fault roomId sb =
  match single (answer fault RoomById
                  (map (room_with_owner (db sb)) (rooms_with_id (db sb) roomId))) with
  | Data room => mkWorld sb (mkRoomDetailsState (Some room) "" false) []
  | Failed _ =>
    mkWorld sb empty_details
      [Toasted (error_toast "Failed to fetch room details"); Navigated "/tenant"]
  end.
Proof.
  unfold openRoom. rewrite fetchRoomDetails_run. cbn.
  destruct (single _); reflexivity.
Qed.

(** X15. The room page shows the owner's contact at once. For a room that
    resolves, whatever the session, the page loads without a toast, has the
    button to send a request, and its card of the owner has the name, the
    email and the phone of the profile the room's owner_id refers to: no
    request has to be accepted first. *)
Theorem openRoom_shows_owner fault roomId sb (row0 : RoomRow) (p : Profile) :
  fault RoomById = None ->
  rooms_with_id (db sb) roomId = [row0] ->
  find (fun p => profiles_id p =? rooms_owner_id row0) (tbl_profiles (db sb)) = Some p ->
  let w := openRoom fault roomId sb in
  exists room : Room,
    details_room (ui w) = Some room /\
    room_row room = row0 /\
    owner_card room
    = (Some (profiles_name p), Some (profiles_email p), Some (profiles_phone p)) /\
    send_button_shown (ui w) = true /\
    events w = [].
Proof.
  intros Hf Hrow Hfind. cbn zeta. rewrite openRoom_run. unfold answer.
  rewrite Hf, Hrow. cbn [map single].
  exists (room_with_owner (db sb) row0). split; [reflexivity|].
  split; [reflexivity|]. split; [|now split].
  unfold owner_card, room_with_owner, embed_profile. cbn [owner].
  now rewrite Hfind.
Qed.

Lemma addRoom_done fault parseFloat gen form sb u pid :
  acts_as fault sb u pid ->
  fault InsertRoom = None ->
  supabase (addRoom fault parseFloat gen form sb)
  = set_db (insert_room (new_room parseFloat gen pid form) (db sb)) sb.
Proof.
  intros Hact Hi. unfold addRoom.
  match goal with |- context [handleSubmit parseFloat fault gen ?x] =>
    rewrite (handleSubmit_done parseFloat fault gen x u pid Hact Hi)
  end. reflexivity.
Qed.

(** X16. A room that was added is found. When the submit goes through and
    the store gave the room an id no room had, the page of that id loads
    that room, for whoever opens it, and the dashboard of the owner lists
    it, after the rooms the owner had. *)
Theorem addRoom_found fault parseFloat gen form sb u pid :
  acts_as fault sb u pid ->
  fault InsertRoom = None ->
  (forall room : RoomRow, In room (tbl_rooms (db sb)) -> rooms_id room <> gen_id gen) ->
  let sb' := supabase (addRoom fault parseFloat gen form sb) in
  exists room : RoomRow,
    tbl_rooms (db sb') = tbl_rooms (db sb) ++ [room] /\
    (forall fault' v,
       fault' RoomById = None ->
       option_map room_row
         (details_room (ui (openRoom fault' (gen_id gen) (signed_in_as v sb'))))
       = Some room) /\
    (forall fault',
       loads fault' sb u pid ->
       owner_rooms (ui (listForOwner fault' sb')) = own_rooms (db sb) pid ++ [room]).
Proof.
  intros Hact Hi Hfresh. cbn zeta. rewrite (addRoom_done fault parseFloat gen form sb u pid Hact Hi).
  exists (new_room parseFloat gen pid form). split; [reflexivity|]. split.
  - intros fault' v Hf. rewrite openRoom_run. unfold answer. rewrite Hf.
    unfold rooms_with_id. cbn. rewrite filter_app.
    change (filter (fun r : RoomRow => rooms_id r =? gen_id gen) (tbl_rooms (db sb)))
      with (rooms_with_id (db sb) (gen_id gen)).
    rewrite (rooms_with_id_unknown _ _ Hfresh). cbn.
    rewrite String.eqb_refl. reflexivity.
  - intros fault' (Hu & Hp & Hf1 & Hf2 & Hf3).
    rewrite (listForOwner_loaded fault' _ u pid); try assumption.
    cbn. unfold own_rooms. cbn. rewrite filter_app. cbn.
    now rewrite String.eqb_refl.
Qed.

(** X17. Adding a room and deleting it. When both go through and the store
    gave the room an id no room had, the delete button of the new room puts
    the tables back as they were before the room was added. *)
Theorem addRoom_then_delete fault fault' parseFloat gen form s sb u pid :
  acts_as fault sb u pid ->
  fault InsertRoom = None ->
  fault' DeleteRoom = None ->
  (forall room : RoomRow, In room (tbl_rooms (db sb)) -> rooms_id room <> gen_id gen) ->
  db (supabase (deleteRoom fault' (gen_id gen) s
                  (supabase (addRoom fault parseFloat gen form sb))))
  = db sb.
Proof.
  intros Hact Hi Hd Hfresh.
  rewrite (addRoom_done fault parseFloat gen form sb u pid Hact Hi).
  rewrite deleteRoom_run, Hd, fetchOwnerData_supabase. cbn.
  unfold delete_room, set_tbl_rooms. cbn. rewrite filter_app. cbn.
  rewrite String.eqb_refl. cbn. rewrite app_nil_r.
  assert (Hsame : filter (fun room : RoomRow => negb (rooms_id room =? gen_id gen))
                    (tbl_rooms (db sb)) = tbl_rooms (db sb)).
  { induction (tbl_rooms (db sb)) as [|x rest IH]; [reflexivity|]. cbn.
    assert (Hx : (rooms_id x =? gen_id gen) = false).
    { apply String.eqb_neq. apply Hfresh. now left. }
    rewrite Hx. cbn. f_equal. apply IH. intros room Hin. apply Hfresh. now right. }
  rewrite Hsame. now destruct (db sb).
Qed.

End RoundTrips.

Section GuardPage.

Context {number : Type}.

Local Abbreviation Database := (@Database number).
Local Abbreviation Supabase := (@Supabase number).
Local Abbreviation World := (@World number).

Implicit Types (fault : Faults) (d : Database) (sb : Supabase) (u : User).
Implicit Types (w : World AuthGuardState) (required : Role) (page : Page).

Lemma load_role_run fault u w :
  load_role fault u w =
  (Data tt,
   mkWorld (supabase w)
     (mkAuthGuardState (Some u)
        (match data_of (single (answer fault ProfileOfUser
                                  (linked_roles (db (supabase w)) u))) with
         | Some role => Some role
         | None => userRole (ui w)
         end)
        (guard_loading (ui w)))
     (events w)).
Proof.
  unfold load_role, profile_role_of_user, select_where, setUser, setUserRole,
    modify_ui, get_db, bind, ret, linked_roles. cbn.
  destruct (data_of _); reflexivity.
Qed.

Lemma checkAuth_run fault w :
  checkAuth fault w =
  match auth_user (supabase w) with
  | None =>
    (Data tt,
     mkWorld (supabase w) (mkAuthGuardState (guard_user (ui w)) (userRole (ui w)) false)
       (events w ++ [Navigated "/"]))
  | Some u =>
    (Data tt,
     mkWorld (supabase w)
       (mkAuthGuardState (Some u)
          (match data_of (single (answer fault ProfileOfUser
                                    (linked_roles (db (supabase w)) u))) with
           | Some role => Some role
           | None => userRole (ui w)
           end)
          false)
       (events w))
  end.
Proof.
  unfold checkAuth, bind at 1, bind at 1, auth_getUser.
  destruct (auth_user (supabase w)) as [u|].
  - now rewrite load_role_run.
  - reflexivity.
Qed.

Lemma onAuthStateChange_signed_in fault u w :
  snd (onAuthStateChange fault (Some u) w) =
  mkWorld (supabase w)
    (mkAuthGuardState (Some u)
       (match data_of (single (answer fault ProfileOfUser
                                 (linked_roles (db (supabase w)) u))) with
        | Some role => Some role
        | None => userRole (ui w)
        end)
       false)
    (events w).
Proof.
  unfold onAuthStateChange, bind at 1. now rewrite load_role_run.
Qed.

Lemma onAuthStateChange_signed_out fault w :
  snd (onAuthStateChange fault None w) =
  mkWorld (supabase w) (mkAuthGuardState None None false) (events w ++ [Navigated "/"]).
Proof. reflexivity. Qed.

Lemma guard_mount_run fault w :
  snd (guard_mount fault w) =
  match auth_user (supabase w) with
  | None =>
    mkWorld (supabase w) (mkAuthGuardState None None false)
      (events w ++ [Navigated "/"; Navigated "/"])
  | Some u =>
    mkWorld (supabase w)
      (mkAuthGuardState (Some u)
         (match data_of (single (answer fault ProfileOfUser
                                   (linked_roles (db (supabase w)) u))) with
          | Some role => Some role
          | None => userRole (ui w)
          end)
         false)
      (events w)
  end.
Proof.
  unfold guard_mount, bind at 1. rewrite checkAuth_run.
  destruct (auth_user (supabase w)) as [u|] eqn:Hu.
  - unfold bind at 1, auth_getUser. cbn [supabase]. rewrite Hu.
    rewrite onAuthStateChange_signed_in. cbn.
    now destruct (data_of _).
  - unfold bind at 1, auth_getUser. cbn [supabase]. rewrite Hu.
    rewrite onAuthStateChange_signed_out. cbn. now rewrite <- app_assoc.
Qed.

Lemma visit_run fault page sb required :
  guard_of page = Some required ->
  visit fault page sb =
  match auth_user sb with
  | None => (Blank, [Navigated "/"; Navigated "/"])
  | Some u =>
    match data_of (single (answer fault ProfileOfUser (linked_roles (db sb) u))) with
    | None => (Blank, [])
    | Some role =>
      (if truthy role
       then if role =? role_name required then Children
            else Redirected (if role =? "tenant" then "/tenant" else "/owner")
       else Blank, [])
    end
  end.
Proof.
  intros Hg. unfold visit. rewrite Hg, guard_mount_run. cbn [supabase].
  destruct (auth_user sb) as [u|]; [|reflexivity].
  cbn. destruct (data_of _) as [role|]; reflexivity.
Qed.

Lemma one_role fault d u role :
  data_of (single (answer fault ProfileOfUser (linked_roles d u))) = Some role <->
  fault ProfileOfUser = None /\ linked_roles d u = [role].
Proof.
  unfold answer. split.
  - destruct (fault ProfileOfUser); [discriminate|].
    destruct (linked_roles d u) as [|x [|y l]]; cbn; try discriminate.
    intros [= ->]. now split.
  - intros [-> ->]. reflexivity.
Qed.

Lemma guard_lets_through fault page sb required :
  guard_of page = Some required ->
  fst (visit fault page sb) = Children <->
  exists u, auth_user sb = Some u /\ fault ProfileOfUser = None /\
            linked_roles (db sb) u = [role_name required].
Proof.
  intros Hg. rewrite (visit_run fault page sb required Hg). split.
  - destruct (auth_user sb) as [u|]; [|discriminate].
    destruct (data_of _) as [role|] eqn:Hrole; [|discriminate].
    apply one_role in Hrole as [Hf Hl]. cbn.
    destruct (truthy role); [|discriminate].
    destruct (role =? role_name required) eqn:Hr; [|discriminate].
    apply String.eqb_eq in Hr. subst role. intros _. now exists u.
  - intros (u & -> & Hf & Hl).
    rewrite (proj2 (one_role fault (db sb) u (role_name required)) (conj Hf Hl)).
    cbn. rewrite String.eqb_refl. now destruct required.
Qed.

(** X18. What the guard lets through. A page with a guard shows its
    children exactly when a user is signed in, the store answers the query
    of the profile, and the user has exactly one profile, whose role is the
    role the page requires. *)
Theorem visit_children fault page sb required :
  guard_of page = Some required ->
  fst (visit fault page sb) = Children <->
  exists u, auth_user sb = Some u /\ fault ProfileOfUser = None /\
            linked_roles (db sb) u = [role_name required].
Proof. exact (guard_lets_through fault page sb required). Qed.

(** X19. Whom the guard leaves with nothing. Without a session the guard
    shows nothing and goes to "/", once from [checkAuth] and once from the
    listener. With a session whose user has no profile, or when the store
    answers the query of the profile with an error, the guard shows nothing
    and goes nowhere. *)
Theorem visit_blank fault page sb required :
  guard_of page = Some required ->
  (auth_user sb = None ->
   visit fault page sb = (Blank, [Navigated "/"; Navigated "/"])) /\
  (forall u,
     auth_user sb = Some u ->
     (forall p, In p (tbl_profiles (db sb)) -> profiles_user_id p <> user_id u)
     \/ fault ProfileOfUser <> None ->
     visit fault page sb = (Blank, [])).
Proof.
  intros Hg. rewrite (visit_run fault page sb required Hg). split.
  - now intros ->.
  - intros u -> Hwhy.
    assert (Hnone : data_of (single (answer fault ProfileOfUser (linked_roles (db sb) u)))
                    = None).
    { unfold answer. destruct Hwhy as [Hno|Hf].
      - unfold linked_roles. rewrite filter_nil_iff.
        + now destruct (fault ProfileOfUser).
        + intros p Hp. apply String.eqb_neq. now apply Hno.
      - destruct (fault ProfileOfUser); [reflexivity|contradiction]. }
    now rewrite Hnone.
Qed.

(** X20. The guard sends a tenant and an owner home. A signed-in tenant on
    the owner's page, or a signed-in owner on a tenant's page, is sent to
    "/tenant" or "/owner" by the role, and the page at that path shows its
    children to that user. *)
Theorem redirect_settles fault page sb required u (own : Role) :
  guard_of page = Some required ->
  required <> own ->
  auth_user sb = Some u ->
  fault ProfileOfUser = None ->
  linked_roles (db sb) u = [role_name own] ->
  exists path home,
    visit fault page sb = (Redirected path, []) /\
    path = ("/" ++ role_name own)%string /\
    page_at path = Some home /\
    fst (visit fault home sb) = Children.
Proof.
  intros Hg Hneq Hu Hf Hl.
  exists ("/" ++ role_name own)%string,
         (match own with tenant_role => TenantDashboardPage | owner_role => OwnerDashboardPage end).
  split; [|split; [reflexivity|split]].
  - rewrite (visit_run fault page sb required Hg), Hu.
    rewrite (proj2 (one_role fault (db sb) u (role_name own)) (conj Hf Hl)).
    destruct own, required; cbn; congruence.
  - now destruct own.
  - apply (guard_lets_through fault _ sb own); [now destruct own|]. now exists u.
Qed.

(** X21. A role that is neither. A signed-in user whose one profile has a
    role other than tenant and owner is sent to "/owner" from every page
    with a guard, also from the page at "/owner" itself, and is never shown
    the children of a guard. *)
Theorem redirect_loops fault sb u role :
  auth_user sb = Some u ->
  fault ProfileOfUser = None ->
  linked_roles (db sb) u = [role] ->
  role <> "" -> role <> "tenant" -> role <> "owner" ->
  page_at "/owner" = Some OwnerDashboardPage /\
  forall page required,
    guard_of page = Some required ->
    visit fault page sb = (Redirected "/owner", []).
Proof.
  intros Hu Hf Hl He Ht Ho. split; [reflexivity|].
  intros page required Hg.
  rewrite (visit_run fault page sb required Hg), Hu.
  rewrite (proj2 (one_role fault (db sb) u role) (conj Hf Hl)).
  assert (Htruthy : truthy role = true) by (destruct role; [contradiction|reflexivity]).
  rewrite Htruthy.
  assert (Hreq : (role =? role_name required) = false).
  { apply String.eqb_neq. destruct required; assumption. }
  apply String.eqb_neq in Ht. now rewrite Ht, Hreq.
Qed.

(** X22. The role outlives the user. When the session changes to a user
    without a profile, the guard takes the new user and keeps the role it
    had: a page that was shown stays shown. The role is dropped only when
    the session ends, and then the guard shows nothing and goes to "/". *)
Theorem onAuthStateChange_keeps_role fault w :
  (forall u',
     (forall p, In p (tbl_profiles (db (supabase w))) -> profiles_user_id p <> user_id u') ->
     let w' := snd (onAuthStateChange fault (Some u') w) in
     guard_user (ui w') = Some u' /\
     userRole (ui w') = userRole (ui w) /\
     events w' = events w /\
     forall required,
       userRole (ui w) = Some (role_name required) ->
       guard_render (Some required) (ui w') = Children) /\
  (let w' := snd (onAuthStateChange fault None w) in
   guard_user (ui w') = None /\ userRole (ui w') = None /\
   events w' = events w ++ [Navigated "/"] /\
   forall wanted : option Role, guard_render wanted (ui w') = Blank).
Proof.
  split.
  - intros u' Hno. cbn zeta.
    assert (Hnone : data_of (single (answer fault ProfileOfUser
                                       (linked_roles (db (supabase w)) u'))) = None).
    { unfold answer, linked_roles. rewrite filter_nil_iff.
      - now destruct (fault ProfileOfUser).
      - intros p Hp. apply String.eqb_neq. now apply Hno. }
    rewrite onAuthStateChange_signed_in, Hnone. cbn.
    split; [reflexivity|split; [reflexivity|split; [reflexivity|]]].
    intros required Hrole. unfold guard_render. cbn. rewrite Hrole.
    rewrite String.eqb_refl. now destruct required.
  - cbn. now repeat split.
Qed.

End GuardPage.

Section SearchPage.

Context {number : Type}.

Local Abbreviation RoomRow := (@RoomRow number).
Local Abbreviation Database := (@Database number).
Local Abbreviation Supabase := (@Supabase number).
Local Abbreviation World := (@World number).
Local Abbreviation TenantDashboardState := (@TenantDashboardState number).

Variable fault : Faults.
Variable lte : number -> number -> bool.
Variable postgrest_or : string -> reply (RoomRow -> bool).

Implicit Types (sb : Supabase) (f : @SearchForm number) (listed : list RoomRow).

Lemma search_run f listed sb :
  search fault lte postgrest_or f listed sb =
  match location_filter postgrest_or f with
  | Failed _ =>
    mkWorld sb (mkTenantDashboardState listed) [Toasted (error_toast "Search failed")]
  | Data keep =>
    match fault ActiveRooms with
    | Some _ =>
      mkWorld sb (mkTenantDashboardState listed) [Toasted (error_toast "Search failed")]
    | None =>
      mkWorld sb
        (mkTenantDashboardState
           (filter (fun r => Bool.eqb (rooms_is_active r) true
                             && lte (rooms_rent r) (budget_0 f)
                             && keep r
                             && type_filter f r)
              (tbl_rooms (db sb))))
        []
    end
  end.
Proof.
  unfold search, handleSearch, try_catch, bind at 1.
  destruct (location_filter postgrest_or f) as [keep|e]; [|reflexivity].
  unfold select_where, bind, ret, get_db, answer, throw_if_error, throw, modify_ui,
    toast, emit. cbn. rewrite map_id.
  destruct (fault ActiveRooms); reflexivity.
Qed.

(** X23. What a search lists. When the store takes the search, the rooms
    listed are the rooms of the table that are active, within the budget,
    kept by the filter of the location, and of the chosen type unless the
    type is "both"; with an empty location no filter of the location is
    sent. The rooms listed are among those [fetchRooms] lists. *)
Theorem search_lists f listed sb :
  fault ActiveRooms = None ->
  (searchLocation f = "" -> location_filter postgrest_or f = Data (fun _ => true)) /\
  (forall keep,
     location_filter postgrest_or f = Data keep ->
     let w := search fault lte postgrest_or f listed sb in
     events w = [] /\
     (forall room,
        In room (tenant_rooms (ui w)) <->
        In room (tbl_rooms (db sb)) /\ rooms_is_active room = true /\
        lte (rooms_rent room) (budget_0 f) = true /\ keep room = true /\
        (roomType f = "both" \/ rooms_room_type room = roomType f)) /\
     incl (tenant_rooms (ui w)) (tenant_rooms (ui (listRooms fault sb)))).
Proof.
  intros Hf. split.
  - unfold location_filter. now intros ->.
  - intros keep Hkeep. cbn zeta. rewrite search_run, Hkeep, Hf. cbn.
    assert (Hfilter : forall room,
      In room (filter (fun r => Bool.eqb (rooms_is_active r) true
                                && lte (rooms_rent r) (budget_0 f)
                                && keep r && type_filter f r) (tbl_rooms (db sb))) <->
      In room (tbl_rooms (db sb)) /\ rooms_is_active room = true /\
      lte (rooms_rent room) (budget_0 f) = true /\ keep room = true /\
      (roomType f = "both" \/ rooms_room_type room = roomType f)).
    { intros room. rewrite filter_In, !andb_true_iff. unfold type_filter.
      rewrite Bool.eqb_true_iff.
      destruct (roomType f =? "both") eqn:Hb.
      - apply String.eqb_eq in Hb. intuition.
      - apply String.eqb_neq in Hb. rewrite String.eqb_eq. intuition. }
    split; [reflexivity|]. split; [exact Hfilter|].
    intros room Hin. apply Hfilter in Hin as (Hin & Hact & _).
    unfold listRooms. rewrite fetchRooms_run, Hf. cbn.
    apply filter_In. split; [assumption|]. now rewrite Hact.
Qed.

(** X24. A search that fails. When the store does not take the filter of
    the location, or answers the query with an error, the dashboard keeps
    the rooms it listed and the toast says "Search failed". *)
Theorem search_fails f listed sb e :
  location_filter postgrest_or f = Failed e \/ fault ActiveRooms = Some e ->
  search fault lte postgrest_or f listed sb
  = mkWorld sb (mkTenantDashboardState listed) [Toasted (error_toast "Search failed")].
Proof.
  intros Hwhy. rewrite search_run.
  destruct (location_filter postgrest_or f) as [keep|e']; [|reflexivity].
  destruct Hwhy as [Hl|Hf]; [discriminate|]. now rewrite Hf.
Qed.

End SearchPage.

Section Histories.

Context {number : Type}.

Local Abbreviation RoomRow := (@RoomRow number).
Local Abbreviation Database := (@Database number).
Local Abbreviation Supabase := (@Supabase number).
Local Abbreviation World := (@World number).

Variable parseFloat : string -> number.

Implicit Types (fault : Faults) (d : Database) (sb : Supabase) (u : User).
Implicit Types (a : @Action) (l : list Action) (r : RequestRow).

Lemma create_tables fault gen roomId message sb :
  db (supabase (create fault gen roomId message sb)) = db sb \/
  exists r, requests_status r = "pending" /\
            db (supabase (create fault gen roomId message sb)) = insert_request r (db sb).
Proof.
  rewrite create_run. destruct (single _) as [room|e]; [|now left].
  rewrite handleSendRequest_run. cbn.
  destruct (auth_user sb) as [u|]; [|now left].
  destruct (profile_reply fault (db sb) u) as [pid|e]; [|now left].
  destruct (fault InsertRequest); [now left|].
  right. eexists. split; [|reflexivity]. reflexivity.
Qed.

Lemma addRoom_tables fault gen form sb :
  db (supabase (addRoom fault parseFloat gen form sb)) = db sb \/
  exists room : RoomRow,
    db (supabase (addRoom fault parseFloat gen form sb)) = insert_room room (db sb).
Proof.
  unfold addRoom. rewrite handleSubmit_run. cbn.
  destruct (auth_user sb) as [u|]; [|now left].
  destruct (profile_reply fault (db sb) u) as [pid|e]; [|now left].
  destruct (fault InsertRoom); [now left|].
  right. now eexists.
Qed.

(** One action: the requests before it are still there, in their order and
    with all but their status; profiles are as they were; known statuses
    stay known. *)
Lemma act_keeps a d :
  (exists more,
     map without_status (tbl_requests (act parseFloat a d))
     = map without_status (tbl_requests d) ++ more) /\
  tbl_profiles (act parseFloat a d) = tbl_profiles d /\
  (Forall known_status (tbl_requests d) ->
   Forall known_status (tbl_requests (act parseFloat a d))).
Proof.
  destruct a as [fault session gen roomId message|fault session requestId status
                |fault session gen form]; cbn [act].
  - destruct (create_tables fault gen roomId message (mkSupabase session d))
      as [->|(r & Hr & ->)]; cbn.
    + split; [exists []; now rewrite app_nil_r|]. now split.
    + split; [exists [without_status r]; now rewrite map_app|]. split; [reflexivity|].
      intros Hall. apply Forall_app. split; [assumption|].
      constructor; [now left|constructor].
  - rewrite decide_tables. destruct (fault UpdateRequest); cbn.
    + split; [exists []; now rewrite app_nil_r|]. now split.
    + split; [|split; [reflexivity|]].
      * exists []. rewrite app_nil_r, map_map. apply map_ext. intros r.
        now destruct (requests_id r =? requestId).
      * intros Hall. apply Forall_map. eapply Forall_impl; [|exact Hall].
        intros r Hr. destruct (requests_id r =? requestId); [|exact Hr].
        unfold known_status. cbn. destruct status; auto.
  - destruct (addRoom_tables fault gen form (mkSupabase session d))
      as [->|(room & ->)]; cbn; (split; [exists []; now rewrite app_nil_r|]); now split.
Qed.

(** X25. Requests are appended and decided, never rewritten. Whatever
    tenants and owners do, in any order and with any answers of the store
    (sending requests, accepting and rejecting, adding rooms), the requests
    there were are still in the table, in their order, each with its id,
    room, tenant, owner, message and date; and the profiles are as they
    were. *)
Theorem requests_only_grow l d :
  (exists more,
     map without_status (tbl_requests (acts parseFloat l d))
     = map without_status (tbl_requests d) ++ more) /\
  tbl_profiles (acts parseFloat l d) = tbl_profiles d.
Proof.
  revert d. induction l as [|a l IH]; intros d; cbn [acts].
  - split; [exists []; now rewrite app_nil_r|reflexivity].
  - destruct (IH (act parseFloat a d)) as [[more Hmore] Hprof].
    destruct (act_keeps a d) as ([more0 Hmore0] & Hprof0 & _).
    split.
    + exists (more0 ++ more). now rewrite Hmore, Hmore0, app_assoc.
    + now rewrite Hprof.
Qed.

(** X26. The status stays one of three. When every request is pending,
    accepted or rejected, it is so after any such history. *)
Theorem statuses_stay_known l d :
  Forall known_status (tbl_requests d) ->
  Forall known_status (tbl_requests (acts parseFloat l d)).
Proof.
  revert d. induction l as [|a l IH]; intros d Hall; cbn [acts]; [exact Hall|].
  apply IH. now apply act_keeps.
Qed.

End Histories.

Section GuardedPages.

Context {number : Type}.

Local Abbreviation RoomRow := (@RoomRow number).
Local Abbreviation Database := (@Database number).
Local Abbreviation Supabase := (@Supabase number).

Implicit Types (fault : Faults) (d : Database) (sb : Supabase) (u : User).




End GuardedPages.

(** ** Instances of these theorems *)

Import Cases.

Lemma deleteRoom_effect_witness :
  let sb := browser "u-omar" (market []) in
  let w := deleteRoom no_fault "room-1" empty_dashboard sb in
  tbl_profiles (db (supabase w)) = [tina; omar; olga] /\
  forall room, In room (owner_rooms (ui w)) -> rooms_id room <> "room-1".
Proof.
  pose (sb := browser "u-omar" (market [])).
  destruct (proj1 (deleteRoom_effect no_fault "room-1" empty_dashboard sb) eq_refl)
    as (_ & Hprof & _ & Hpage).
  split; [exact Hprof|].
  apply (Hpage (mkUser "u-omar") "p-omar"). repeat split.
Defined.

Lemma unknown_id_is_success_witness :
  let sb := browser "u-omar" (market []) in
  db (supabase (deleteRoom no_fault "room-9" empty_dashboard sb)) = db sb /\
  In (Toasted (success_toast "Room deleted successfully"))
     (events (deleteRoom no_fault "room-9" empty_dashboard sb)).
Proof.
  apply (proj1 (unknown_id_is_success no_fault empty_dashboard
                  (browser "u-omar" (market []))) "room-9" eq_refl).
  cbn. intros room [<-|[<-|[]]]; cbn; discriminate.
Defined.

Lemma decide_last_wins_witness :
  let sb := browser "u-omar" (market [ask "req-1" "pending"]) in
  db (supabase (decide no_fault "req-1" rejected empty_dashboard
                  (supabase (decide no_fault "req-1" accepted empty_dashboard sb))))
  = db (supabase (decide no_fault "req-1" rejected empty_dashboard sb)).
Proof.
  apply (decide_last_wins no_fault no_fault "req-1" accepted rejected
           empty_dashboard empty_dashboard
           (browser "u-omar" (market [ask "req-1" "pending"])));
    reflexivity.
Defined.

Lemma decide_reloads_page_witness :
  let sb := browser "u-omar" (market [ask "req-1" "pending"]) in
  let w := decide no_fault "req-1" accepted (ui (listForOwner no_fault sb)) sb in
  ~ In ("req-1", accepted) (offered (ui w)) /\ ~ In ("req-1", rejected) (offered (ui w)).
Proof.
  pose (sb := browser "u-omar" (market [ask "req-1" "pending"])).
  destruct (decide_reloads_page no_fault "req-1" accepted (ui (listForOwner no_fault sb)) sb
              (mkUser "u-omar") "p-omar" eq_refl) as [_ Hnone].
  - repeat split.
  - split; apply Hnone.
Defined.

Lemma fetchOwnerData_half_way_witness :
  let w := mkWorld (browser "u-omar" (market [ask "req-1" "pending"]))
             (@empty_dashboard string) [] in
  let w' := snd (fetchOwnerData requests_down w) in
  owner_rooms (ui w') = [flat true] /\
  owner_requests (ui w') = [] /\
  events w' = [Toasted (error_toast "Failed to fetch data")].
Proof.
  apply (fetchOwnerData_half_way requests_down
           (mkWorld (browser "u-omar" (market [ask "req-1" "pending"]))
              (@empty_dashboard string) [])
           (mkUser "u-omar") "p-omar" "timeout"); [repeat split|reflexivity|reflexivity].
Defined.

Lemma listForOwner_own_witness :
  let sb := browser "u-olga" (market [ask "req-1" "pending"]) in
  owner_rooms (ui (listForOwner no_fault sb)) = [cheap true] /\
  map row (owner_requests (ui (listForOwner no_fault sb))) = [].
Proof.
  apply (proj2 (proj2 (listForOwner_own no_fault
                         (browser "u-olga" (market [ask "req-1" "pending"]))))
           (mkUser "u-olga") "p-olga").
  repeat split.
Defined.

Lemma send_twice_witness :
  let w := page_of_flat (browser "u-tina" (tables true [])) in
  let w' := snd (handleSendRequest no_fault stamp' (snd (handleSendRequest no_fault stamp w))) in
  exists r r',
    tbl_requests (db (supabase w')) = [] ++ [r; r'] /\
    requests_id r = "req-1" /\ requests_id r' = "req-2" /\
    requests_status r = "pending" /\ requests_status r' = "pending" /\
    requests_tenant_id r = "p-tina" /\ requests_tenant_id r' = "p-tina" /\
    requests_room_id r' = requests_room_id r /\
    requests_message r' = "I'm interested in this room".
Proof.
  apply (send_twice no_fault stamp stamp' (page_of_flat (browser "u-tina" (tables true [])))
           (flat_loaded (tables true [])) (mkUser "u-tina") "p-tina" eq_refl);
    [repeat split|reflexivity].
Defined.

Lemma handleSendRequest_ends_witness :
  let w := page_of_flat (browser "u-tina" (tables true [])) in
  let w' := snd (handleSendRequest insert_refused stamp w) in
  details_loading (ui w') = false /\
  supabase w' = supabase w /\
  events w' = [Toasted (error_toast "violates row-level security")].
Proof.
  pose (w := page_of_flat (browser "u-tina" (tables true []))).
  destruct (handleSendRequest_ends insert_refused stamp w (flat_loaded (tables true []))
              eq_refl) as (_ & Hload & _ & _ & _ & _ & Hmsg).
  split; [exact Hload|]. split; [reflexivity|].
  apply (Hmsg (mkUser "u-tina") "p-tina" "violates row-level security");
    [repeat split|reflexivity].
Defined.

Lemma accepted_shows_contact_witness :
  let sb := browser "u-tina" (tables true []) in
  let sb1 := signed_in_as (Some (mkUser "u-omar"))
               (supabase (create no_fault stamp "room-1" "hello" sb)) in
  let page := ui (listForOwner no_fault sb1) in
  let w := decide no_fault "req-1" accepted page sb1 in
  In ("req-1", accepted) (offered page) /\
  exists card,
    map renderRequest (owner_requests (ui w)) = [card] /\
    card_contact card = Some (Some "tina@example.org", Some "555-0101") /\
    card_buttons card = [].
Proof.
  apply (accepted_shows_contact no_fault no_fault stamp "room-1" "hello"
           (browser "u-tina" (tables true [])) (flat true)
           (mkUser "u-tina") "p-tina" tina (mkUser "u-omar"));
    first [reflexivity | repeat split].
Defined.

Lemma form_keeps_checkboxes_witness :
  map fst (features (ui (snd (inputs typed_form
                                (mkWorld (browser "u-omar" (market [])) empty_form [])))))
  = ["wifi"; "electricity"; "water"; "parking"; "furnished"; "security"].
Proof.
  apply (form_keeps_checkboxes typed_form (browser "u-omar" (market []))).
  intros f v Hin. cbn in Hin.
  repeat (destruct Hin as [Hin|Hin]; [try discriminate; injection Hin as <- _; cbn; tauto|]).
  contradiction.
Defined.

Lemma fillAndSubmit_row_witness :
  exists room : @RoomRow string,
    tbl_rooms (db (supabase (fillAndSubmit no_fault literal room_stamp typed_form
                               (browser "u-omar" (market [])))))
    = [flat true; cheap true] ++ [room] /\
    rooms_city room = "Pune" /\ rooms_rent room = "4500" /\
    get_key "wifi" (rooms_features room) = Some false /\
    get_key "water" (rooms_features room) = Some true /\
    get_key "parking" (rooms_features room) = Some false.
Proof.
  destruct (fillAndSubmit_row no_fault literal room_stamp typed_form
              (browser "u-omar" (market [])) (mkUser "u-omar") "p-omar")
    as (room & Htbl & _ & _ & _ & _ & Hcity & _ & _ & _ & _ & _ & Hrent & _ & Hflags);
    [repeat split|reflexivity|].
  exists room. split; [exact Htbl|]. split; [exact Hcity|]. split; [exact Hrent|].
  split; [|split].
  - apply (Hflags "wifi"). cbn. tauto.
  - apply (Hflags "water"). cbn. tauto.
  - apply (Hflags "parking"). cbn. tauto.
Defined.

Lemma openRoom_shows_owner_witness :
  let w := openRoom no_fault "room-1" (mkSupabase None (market [])) in
  exists room,
    details_room (ui w) = Some room /\
    room_row room = flat true /\
    owner_card room = (Some "Omar", Some "omar@example.org", Some "555-0202") /\
    send_button_shown (ui w) = true /\
    events w = [].
Proof.
  apply (openRoom_shows_owner no_fault "room-1" (mkSupabase None (market []))
           (flat true) omar); reflexivity.
Defined.

Lemma addRoom_found_witness :
  let sb := browser "u-omar" (market []) in
  let sb' := supabase (addRoom no_fault literal room_stamp new_room_form sb) in
  exists room : @RoomRow string,
    tbl_rooms (db sb') = tbl_rooms (db sb) ++ [room] /\
    (forall fault' v,
       fault' RoomById = None ->
       option_map room_row
         (details_room (ui (openRoom fault' "room-3" (signed_in_as v sb'))))
       = Some room) /\
    (forall fault',
       loads fault' sb (mkUser "u-omar") "p-omar" ->
       owner_rooms (ui (listForOwner fault' sb')) = own_rooms (db sb) "p-omar" ++ [room]).
Proof.
  apply (addRoom_found no_fault literal room_stamp new_room_form
           (browser "u-omar" (market [])) (mkUser "u-omar") "p-omar");
    [repeat split|reflexivity|].
  cbn. intros room [<-|[<-|[]]]; cbn; discriminate.
Defined.

Lemma addRoom_then_delete_witness :
  let sb := browser "u-omar" (market []) in
  db (supabase (deleteRoom no_fault "room-3" empty_dashboard
                  (supabase (addRoom no_fault literal room_stamp new_room_form sb))))
  = db sb.
Proof.
  apply (addRoom_then_delete no_fault no_fault literal room_stamp new_room_form
           empty_dashboard (browser "u-omar" (market [])) (mkUser "u-omar") "p-omar");
    [repeat split|reflexivity|reflexivity|].
  cbn. intros room [<-|[<-|[]]]; cbn; discriminate.
Defined.

Lemma visit_children_witness :
  fst (visit no_fault (RoomDetailsPage "room-1") (browser "u-tina" staffed)) = Children.
Proof.
  apply (visit_children no_fault (RoomDetailsPage "room-1") (browser "u-tina" staffed)
           tenant_role eq_refl).
  exists (mkUser "u-tina"). repeat split.
Defined.

Lemma visit_blank_witness :
  visit no_fault OwnerDashboardPage (mkSupabase None staffed)
  = (Blank, [Navigated "/"; Navigated "/"]) /\
  visit no_fault OwnerDashboardPage (browser "u-zed" staffed) = (Blank, []).
Proof.
  split.
  - apply (proj1 (visit_blank no_fault OwnerDashboardPage (mkSupabase None staffed)
                    owner_role eq_refl)).
    reflexivity.
  - apply (proj2 (visit_blank no_fault OwnerDashboardPage (browser "u-zed" staffed)
                    owner_role eq_refl) (mkUser "u-zed") eq_refl).
    left. cbn. intros p [<-|[<-|[<-|[]]]]; cbn; discriminate.
Defined.

Lemma redirect_settles_witness :
  exists path home,
    visit no_fault OwnerDashboardPage (browser "u-tina" staffed) = (Redirected path, []) /\
    path = "/tenant" /\
    page_at path = Some home /\
    fst (visit no_fault home (browser "u-tina" staffed)) = Children.
Proof.
  apply (redirect_settles no_fault OwnerDashboardPage (browser "u-tina" staffed)
           owner_role (mkUser "u-tina") tenant_role); try reflexivity.
  discriminate.
Defined.

Lemma redirect_loops_witness :
  page_at "/owner" = Some OwnerDashboardPage /\
  forall page required,
    guard_of page = Some required ->
    visit no_fault page (browser "u-ada" staffed) = (Redirected "/owner", []).
Proof.
  apply (redirect_loops no_fault (browser "u-ada" staffed) (mkUser "u-ada") "admin");
    try reflexivity; discriminate.
Defined.

Lemma onAuthStateChange_keeps_role_witness :
  let w' := snd (onAuthStateChange no_fault (Some (mkUser "u-zed")) (omar_passed staffed)) in
  guard_user (ui w') = Some (mkUser "u-zed") /\
  userRole (ui w') = Some "owner" /\
  guard_render (Some owner_role) (ui w') = Children.
Proof.
  destruct (proj1 (onAuthStateChange_keeps_role no_fault (omar_passed staffed))
              (mkUser "u-zed")) as (Hu & Hr & _ & Hshown).
  - cbn. intros p [<-|[<-|[<-|[]]]]; cbn; discriminate.
  - split; [exact Hu|]. split; [exact Hr|]. apply Hshown. reflexivity.
Defined.

Lemma search_lists_witness :
  let w := search no_fault literal_lte no_or (mkSearchForm "" "4000" "both") []
             (browser "u-tina" (market [])) in
  In (cheap true) (tenant_rooms (ui w)) /\ ~ In (flat true) (tenant_rooms (ui w)).
Proof.
  pose (sb := browser "u-tina" (market [])).
  destruct (proj2 (search_lists no_fault literal_lte no_or (mkSearchForm "" "4000" "both") []
                     sb eq_refl) (fun _ => true) eq_refl) as (_ & Hlist & _).
  split.
  - apply Hlist. cbn. tauto.
  - intros Hin. apply Hlist in Hin as (_ & _ & Hbudget & _). discriminate Hbudget.
Defined.

Lemma search_fails_witness :
  search rooms_down literal_lte no_or (mkSearchForm "" "4000" "both") [flat true]
    (browser "u-tina" (market []))
  = mkWorld (browser "u-tina" (market [])) (mkTenantDashboardState [flat true])
      [Toasted (error_toast "Search failed")] /\
  search no_fault literal_lte no_or (mkSearchForm "Pune" "4000" "both") [flat true]
    (browser "u-tina" (market []))
  = mkWorld (browser "u-tina" (market [])) (mkTenantDashboardState [flat true])
      [Toasted (error_toast "Search failed")].
Proof.
  split.
  - apply (search_fails rooms_down literal_lte no_or (mkSearchForm "" "4000" "both")
             [flat true] (browser "u-tina" (market [])) "timeout").
    right. reflexivity.
  - apply (search_fails no_fault literal_lte no_or (mkSearchForm "Pune" "4000" "both")
             [flat true] (browser "u-tina" (market [])) "failed to parse logic tree").
    left. reflexivity.
Defined.

Lemma statuses_stay_known_witness :
  Forall known_status
    (tbl_requests (acts literal history (market [ask "req-0" "rejected"]))).
Proof.
  apply (statuses_stay_known literal history (market [ask "req-0" "rejected"])).
  constructor; [right; right; reflexivity|constructor].
Defined.


